(** * standardize_cv.py: the JSON salvage parser, the artifact selector and
      the RenderCV projection, embedded and verified.

    Python objects are embedded as the inductive [value]; a [dict] is an
    association list in insertion order, as CPython keeps it.  A Python
    [str] is a sequence of Unicode code points.  Code that can raise is
    written in a small exception monad. *)

From Stdlib Require Import List ZArith NArith Bool Lia String Ascii.
From Stdlib Require Import Sorted Permutation.
From Stdlib Require Import Floats.SpecFloat.
Import ListNotations.

Set Implicit Arguments.

(* ================================================================== *)
(** * Python strings *)
(* ================================================================== *)

(** A [str] is a list of code points. *)
Definition str := list N.

(** String literals of the source are written [lit "..."]. *)
Definition lit (s : string) : str :=
  List.map N_of_ascii (list_ascii_of_string s).
Arguments lit s%_string.

Fixpoint str_eqb (a b : str) : bool :=
  match a, b with
  | [], [] => true
  | x :: a', y :: b' => N.eqb x y && str_eqb a' b'
  | _, _ => false
  end.

(** [str.isspace] on one character: the code points CPython's
    [_PyUnicode_IsWhitespace] accepts. *)
Definition isspace (c : N) : bool :=
  ((9 <=? c) && (c <=? 13)            (* \t \n \v \f \r *)
   || (28 <=? c) && (c <=? 32)        (* FS GS RS US and the space *)
   || (c =? 133) || (c =? 160)        (* NEL, NBSP *)
   || (c =? 5760)                     (* U+1680 *)
   || (8192 <=? c) && (c <=? 8202)    (* U+2000 .. U+200A *)
   || (c =? 8232) || (c =? 8233)      (* U+2028, U+2029 *)
   || (c =? 8239) || (c =? 8287)      (* U+202F, U+205F *)
   || (c =? 12288))%N.                (* U+3000 *)

Fixpoint lstrip (s : str) : str :=
  match s with
  | c :: s' => if isspace c then lstrip s' else s
  | [] => []
  end.

Definition rstrip (s : str) : str := rev (lstrip (rev s)).

(** [s.strip()] *)
Definition strip (s : str) : str := rstrip (lstrip s).

(** [sep.join(parts)] *)
Fixpoint join (sep : str) (parts : list str) : str :=
  match parts with
  | [] => []
  | [p] => p
  | p :: rest => p ++ sep ++ join sep rest
  end.

(** [s.find(c)] for a one-character needle: the lowest index, or -1. *)
Fixpoint find_from (c : N) (s : str) (i : Z) : Z :=
  match s with
  | [] => (-1)%Z
  | x :: s' => if N.eqb x c then i else find_from c s' (i + 1)%Z
  end.

Definition find (s : str) (c : N) : Z := find_from c s 0%Z.

(** [s.rfind(c)] for a one-character needle: the highest index, or -1. *)
Fixpoint rfind_from (c : N) (s : str) (i : Z) (last : Z) : Z :=
  match s with
  | [] => last
  | x :: s' => rfind_from c s' (i + 1)%Z (if N.eqb x c then i else last)
  end.

Definition rfind (s : str) (c : N) : Z := rfind_from c s 0%Z (-1)%Z.

(** [s[lo:hi]]: a negative bound counts from the end, and both bounds are
    clamped to the string. *)
Definition slice_bound (len i : Z) : Z :=
  let j := if (i <? 0)%Z then (i + len)%Z else i in
  Z.max 0 (Z.min len j).

Definition slice (s : str) (lo hi : Z) : str :=
  let len := Z.of_nat (List.length s) in
  let a := slice_bound len lo in
  let b := slice_bound len hi in
  firstn (Z.to_nat (b - a)) (skipn (Z.to_nat a) s).

(* ================================================================== *)
(** * Python objects, as [json.loads] builds them *)
(* ================================================================== *)

Unset Elimination Schemes.
Inductive value : Type :=
| VNone
| VBool (b : bool)
| VInt (z : Z)
| VFloat (f : spec_float)
| VStr (s : str)
| VList (l : list value)
| VDict (d : list (str * value)).
Set Elimination Schemes.

Definition dict := list (str * value).

Section value_induction.
Variable P : value -> Prop.
Hypothesis HNone : P VNone.
Hypothesis HBool : forall b, P (VBool b).
Hypothesis HInt : forall z, P (VInt z).
Hypothesis HFloat : forall f, P (VFloat f).
Hypothesis HStr : forall s, P (VStr s).
Hypothesis HList : forall l, Forall P l -> P (VList l).
Hypothesis HDict : forall d, Forall (fun kv => P (snd kv)) d -> P (VDict d).

End value_induction.

(** Truth value of an object ([bool(v)]). *)
Definition truthy (v : value) : bool :=
  match v with
  | VNone => false
  | VBool b => b
  | VInt z => negb (z =? 0)%Z
  | VFloat (S754_zero _) => false
  | VFloat _ => true
  | VStr s => match s with [] => false | _ => true end
  | VList l => match l with [] => false | _ => true end
  | VDict d => match d with [] => false | _ => true end
  end.

(** [a or b] *)
Definition py_or (a b : value) : value := if truthy a then a else b.

Definition is_none (v : value) : bool :=
  match v with VNone => true | _ => false end.

(* ------------------------------------------------------------------ *)
(** ** Dictionaries *)

Fixpoint dict_get (d : dict) (k : str) : option value :=
  match d with
  | [] => None
  | (k', v) :: d' => if str_eqb k' k then Some v else dict_get d' k
  end.

(** [d[k] = v]: an existing key keeps its position, a new key goes last. *)
Fixpoint dict_set (d : dict) (k : str) (v : value) : dict :=
  match d with
  | [] => [(k, v)]
  | (k', v') :: d' =>
      if str_eqb k' k then (k', v) :: d' else (k', v') :: dict_set d' k v
  end.

Definition keys (d : dict) : list str := List.map fst d.

(** [k in d] *)
Definition has_key (d : dict) (k : str) : bool :=
  match dict_get d k with Some _ => true | None => false end.

(** [d.get(k)]: the value, or [None] when the key is absent. *)
Definition get (d : dict) (k : str) : value :=
  match dict_get d k with Some v => v | None => VNone end.

(* ------------------------------------------------------------------ *)
(** ** Exceptions *)

Inductive exn : Type :=
| AttributeError
| TypeError
| KeyError
| ValueError        (* "Model output does not contain a JSON object" *)
| JSONDecodeError
| IndexError
| RuntimeError
| LibraryError (cls : str).
                    (* an exception of class [cls] that a library call lets
                       out and no handler of the program names: the plain
                       ValueError of the integer digit limit inside
                       json.loads, RecursionError, ... *)

Inductive result (A : Type) : Type :=
| Ok (a : A)
| Raise (e : exn).
Arguments Ok {A} a.
Arguments Raise {A} e.

Definition bind {A B} (m : result A) (f : A -> result B) : result B :=
  match m with
  | Ok a => f a
  | Raise e => Raise e
  end.

Notation "x <- m ;; k" := (bind m (fun x => k))
  (at level 61, m at next level, right associativity).

(** [v.get(k)] on an arbitrary object: only a dict has the method. *)
Definition attr_get (v : value) (k : str) : result value :=
  match v with
  | VDict d => Ok (get d k)
  | _ => Raise AttributeError
  end.

(** [v[k]] with a string key, used on objects whose [.get] already
    succeeded. *)
Definition getitem (v : value) (k : str) : result value :=
  match v with
  | VDict d =>
      match dict_get d k with Some x => Ok x | None => Raise KeyError end
  | _ => Raise TypeError
  end.

(** [for item in v]: the items visited. A list yields its elements, a
    dict its keys, a string its characters; nothing else in [value] is
    iterable. *)
Definition iterate (v : value) : result (list value) :=
  match v with
  | VList l => Ok l
  | VDict d => Ok (List.map (fun kv => VStr (fst kv)) d)
  | VStr s => Ok (List.map (fun c => VStr [c]) s)
  | _ => Raise TypeError
  end.

(** [sep.join(parts)] on a list of objects: every part must be a [str]. *)
Fixpoint str_items (l : list value) : result (list str) :=
  match l with
  | [] => Ok []
  | VStr s :: l' => rest <- str_items l' ;; Ok (s :: rest)
  | _ :: _ => Raise TypeError
  end.

Definition py_join (sep : str) (parts : list value) : result str :=
  ss <- str_items parts ;; Ok (join sep ss).

Definition nonempty {A} (l : list A) : bool :=
  match l with [] => false | _ => true end.

(* ================================================================== *)
(** * The schema projector: [convert_structured_to_rendercv_yaml] *)
(* ================================================================== *)

(** [_strip_none_fields]: copy the items whose value is not [None] into a
    fresh dict, in iteration order. *)
Definition _strip_none_fields (d : dict) : dict :=
  fold_left
    (fun out kv => if is_none (snd kv) then out else dict_set out (fst kv) (snd kv))
    d [].

(** The dict literal appended for one experience item (lines 246-257). *)
Definition experience_entry (item : dict) : dict :=
  _strip_none_fields
    [ (lit "company", py_or (get item (lit "company")) (VStr []));
      (lit "position", get item (lit "position"));
      (lit "location", get item (lit "location"));
      (lit "start_date", get item (lit "start_date"));
      (lit "end_date", get item (lit "end_date"));
      (lit "highlights", py_or (get item (lit "highlights")) (VList [])) ].

(** The dict literal appended for one education item (lines 266-278). *)
Definition education_entry (item : dict) : dict :=
  _strip_none_fields
    [ (lit "institution", py_or (get item (lit "institution")) (VStr []));
      (lit "degree", get item (lit "degree"));
      (lit "field", get item (lit "field"));
      (lit "location", get item (lit "location"));
      (lit "start_date", get item (lit "start_date"));
      (lit "end_date", get item (lit "end_date"));
      (lit "highlights", py_or (get item (lit "notes")) (VList [])) ].

(** The loop [for item in ...: if not isinstance(item, dict): continue;
    entries.append(entry(item))]. *)
Definition collect_entries (entry : dict -> dict) (items : list value)
  : list value :=
  fold_left
    (fun entries item =>
       match item with
       | VDict d => entries ++ [VDict (entry d)]
       | _ => entries
       end)
    items [].

(** The condition of the skills comprehension:
    [isinstance(s, str) and s.strip()]. *)
Definition keep_skill (s : value) : bool :=
  match s with
  | VStr t => truthy (VStr (strip t))
  | _ => false
  end.

(** [cv = structured.get("cv") or {}] *)
Definition cv_of (structured : dict) : value :=
  py_or (get structured (lit "cv")) (VDict []).

(** [exp_entries] after the loop of lines 243-257. *)
Definition exp_entries (cv : value) : result (list value) :=
  experience <- attr_get cv (lit "experience") ;;
  items <- iterate (py_or experience (VList [])) ;;
  Ok (collect_entries experience_entry items).

(** [edu_entries] after the loop of lines 263-278. *)
Definition edu_entries (cv : value) : result (list value) :=
  education <- attr_get cv (lit "education") ;;
  items <- iterate (py_or education (VList [])) ;;
  Ok (collect_entries education_entry items).

(** [skills] of line 283. *)
Definition skills (cv : value) : result (list value) :=
  sk <- attr_get cv (lit "skills") ;;
  items <- iterate (py_or sk (VList [])) ;;
  Ok (filter keep_skill items).

(** The [sections] mapping (lines 239-285). *)
Definition sections (cv : value) : result dict :=
  let s0 : dict := [] in
  exp <- exp_entries cv ;;
  let s1 := if nonempty exp
            then dict_set s0 (lit "experience") (VList exp) else s0 in
  edu <- edu_entries cv ;;
  let s2 := if nonempty edu
            then dict_set s1 (lit "education") (VList edu) else s1 in
  sk <- skills cv ;;
  if nonempty sk then
    details <- py_join (lit ", ") sk ;;
    Ok (dict_set s2 (lit "skills")
          (VList [VDict [(lit "details", VStr details)]]))
  else Ok s2.

Section Projector.

(** [str(v)] for an object that is not a [str] is CPython's [repr]; it
    is not code of this program. *)
Variable py_repr : value -> str.

Definition py_str (v : value) : str :=
  match v with
  | VStr s => s
  | _ => py_repr v
  end.

(** One [if contact.get(key): social.append(...)] step. *)
Definition social_entry (contact : value) (key network : str)
  : result (list value) :=
  x <- attr_get contact key ;;
  if truthy x then
    u <- getitem contact key ;;
    Ok [VDict [ (lit "network", VStr network);
                (lit "username", VStr (py_str u)) ]]
  else Ok [].

Definition social_networks (contact : value) : result (list value) :=
  l <- social_entry contact (lit "linkedin") (lit "LinkedIn") ;;
  g <- social_entry contact (lit "github") (lit "GitHub") ;;
  Ok (l ++ g).

(** The top-level mapping [rendercv_cv] before stripping (lines 222-237). *)
Definition rendercv_cv (cv : value) : result dict :=
  contact_info <- attr_get cv (lit "contact_info") ;;
  let contact := py_or contact_info (VDict []) in
  name <- attr_get cv (lit "name") ;;
  email <- attr_get contact (lit "email") ;;
  phone <- attr_get contact (lit "phone") ;;
  location <- attr_get contact (lit "location") ;;
  website <- attr_get contact (lit "website") ;;
  let d := [ (lit "name", py_or name (VStr []));
             (lit "email", email);
             (lit "phone", phone);
             (lit "location", location);
             (lit "website", website) ] in
  social <- social_networks contact ;;
  Ok (if nonempty social
      then dict_set d (lit "social_networks") (VList social)
      else d).

Definition convert_structured_to_rendercv_yaml (structured : dict)
  : result dict :=
  let cv := cv_of structured in
  top <- rendercv_cv cv ;;
  secs <- sections cv ;;
  let cv_out := _strip_none_fields top in
  Ok [ (lit "cv",
        VDict (if nonempty secs
               then dict_set cv_out (lit "sections") (VDict secs)
               else cv_out)) ].

End Projector.

(** Nested lookup along a path of keys: [None] as soon as a key is
    missing or the object reached is not a dict. *)
Fixpoint lookup_path (v : value) (path : list str) : option value :=
  match path with
  | [] => Some v
  | k :: path' =>
      match v with
      | VDict d =>
          match dict_get d k with
          | Some x => lookup_path x path'
          | None => None
          end
      | _ => None
      end
  end.

(** A field is absent-or-null when the lookup finds nothing or [None]. *)
Definition missing_or_null (o : option value) : Prop :=
  o = None \/ o = Some VNone.

Definition not_none (kv : str * value) : bool := negb (is_none (snd kv)).

(** Distinctness of the keys of a dict literal, decided by computation. *)
Fixpoint distinct (l : list str) : bool :=
  match l with
  | [] => true
  | k :: l' => negb (existsb (str_eqb k) l') && distinct l'
  end.


(* ================================================================== *)
(** * The artifact selector: [_find_best_markdown] *)
(* ================================================================== *)

(** A [Path] is the list of its components; [p.name] is the last one. *)
Definition Path := list str.

Definition name (p : Path) : str := last p [].

(** One pattern letter [p] (lower case, ASCII) against one subject
    character [c] under [re.IGNORECASE]: the letter, its capital, and the
    extra characters the [re] module folds onto it (dotless and dotted I,
    long s, the Kelvin sign). *)
Definition ci_match (p c : N) : bool :=
  ((c =? p) || (c =? p - 32)
   || (p =? 105) && ((c =? 304) || (c =? 305))
   || (p =? 115) && (c =? 383)
   || (p =? 107) && (c =? 8490))%N.

(** The pattern word matches at the start of the subject. *)
Fixpoint match_here (pat s : str) : bool :=
  match pat, s with
  | [], _ => true
  | _ :: _, [] => false
  | p :: pat', c :: s' => ci_match p c && match_here pat' s'
  end.

(** [re.search(word, s, re.IGNORECASE)] finds a match somewhere. *)
Fixpoint search_word (pat s : str) : bool :=
  match_here pat s ||
  match s with
  | [] => false
  | _ :: s' => search_word pat s'
  end.

(** [re.search(r"(cv|resume)", s, re.IGNORECASE)] as a truth value. *)
Definition re_search_cv_resume (s : str) : bool :=
  search_word (lit "cv") s || search_word (lit "resume") s.

(** Tuples [(int, int)] compare lexicographically. *)
Definition key_ltb (a b : Z * Z) : bool :=
  ((fst a <? fst b) || (fst a =? fst b) && (snd a <? snd b))%Z.

Definition key_leb (a b : Z * Z) : bool := negb (key_ltb b a).

(** [l.sort(key=key, reverse=True)]: a stable sort by descending key.
    An element is inserted in front of the first one whose key is not
    greater, so equal keys keep the order they came in. *)
Section Sort.
Variable A : Type.
Variable key : A -> Z * Z.

Fixpoint insert_desc (x : A) (l : list A) : list A :=
  match l with
  | [] => [x]
  | y :: l' =>
      if key_ltb (key x) (key y) then y :: insert_desc x l' else x :: l
  end.

Fixpoint sort_desc (l : list A) : list A :=
  match l with
  | [] => []
  | x :: l' => insert_desc x (sort_desc l')
  end.
End Sort.

Section Selector.

(** The file system the selector looks at: the files
    [marker_out_dir.rglob("*.md")] lists, and [p.stat().st_size], which
    is [None] when [stat] raises [OSError]. *)
Variable rglob_md : Path -> list Path.
Variable st_size : Path -> option N.

Definition score (p : Path) : Z * Z :=
  let name_bias := if re_search_cv_resume (name p) then 1%Z else 0%Z in
  let size := match st_size p with
              | Some n => Z.of_N n
              | None => 0%Z
              end in
  (name_bias, size).

Definition _find_best_markdown (marker_out_dir : Path) : result Path :=
  let candidates := rglob_md marker_out_dir in
  if nonempty candidates then
    match sort_desc score candidates with
    | p :: _ => Ok p
    | [] => Raise IndexError
    end
  else Raise RuntimeError.

End Selector.

(* ================================================================== *)
(** * The JSON salvage parser: [_extract_json_object] *)
(* ================================================================== *)

Definition lbrace : N := 123.
Definition rbrace : N := 125.

(** What [json.loads(s)] does: it returns the decoded value, raises
    [json.JSONDecodeError] (the one class line 149 catches), or raises
    something else, named by its class: a plain [ValueError] for an
    integer literal beyond the digit limit of [int], [RecursionError] for
    a nesting that is too deep. *)
Inductive loads_result : Type :=
| Loaded (v : value)
| DecodeError
| OtherError (cls : str).

(** [return json.loads(s)] outside any handler: every exception goes to
    the caller. *)
Definition return_loaded (r : loads_result) : result value :=
  match r with
  | Loaded v => Ok v
  | DecodeError => Raise JSONDecodeError
  | OtherError cls => Raise (LibraryError cls)
  end.

Section Salvage.

(** [json.loads] is the standard library's parser. *)
Variable json_loads : str -> loads_result.

Definition _extract_json_object (text : str) : result value :=
  let text := strip text in
  match json_loads text with
  | Loaded v => Ok v
  | OtherError cls => Raise (LibraryError cls)
  | DecodeError =>
      let start := find text lbrace in
      let end_ := rfind text rbrace in
      if ((start =? -1) || (end_ =? -1) || (end_ <=? start))%Z
      then Raise ValueError
      else
        let candidate := slice text start (end_ + 1)%Z in
        return_loaded (json_loads candidate)
  end.

End Salvage.

(** ** The salvage algorithm as the specification words it *)

Module SalvageSpec.

Inductive failure : Type := NoJsonFound | InvalidJson.

(** Remove the whitespace at both ends. *)
Fixpoint trim_left (s : str) : str :=
  match s with
  | c :: s' => if isspace c then trim_left s' else s
  | [] => []
  end.

Fixpoint trim_right (s : str) : str :=
  match s with
  | [] => []
  | c :: s' =>
      match trim_right s' with
      | [] => if isspace c then [] else [c]
      | t => c :: t
      end
  end.

Definition trim (s : str) : str := trim_right (trim_left s).

(** Position of the first occurrence of [c]. *)
Fixpoint first_index (c : N) (s : str) : option nat :=
  match s with
  | [] => None
  | x :: s' =>
      if N.eqb x c then Some 0
      else option_map S (first_index c s')
  end.

(** Position of the last occurrence of [c]. *)
Fixpoint last_index (c : N) (s : str) : option nat :=
  match s with
  | [] => None
  | x :: s' =>
      match last_index c s' with
      | Some j => Some (S j)
      | None => if N.eqb x c then Some 0 else None
      end
  end.

(** The characters at positions [i .. j], both included. *)
Definition between (i j : nat) (s : str) : str :=
  firstn (j - i + 1) (skipn i s).

(** Steps 2 and 3 share their wording in both readings below: the slice
    from the first opening brace to the last closing brace, handed to
    [parse_slice]; NoJsonFound when there is no such slice. *)
Definition brace_slice (t : str) : option str :=
  match first_index lbrace t, last_index rbrace t with
  | Some i, Some j => if i <? j then Some (between i j t) else None
  | _, _ => None
  end.

Section Worded.
(** The specification's parser either yields a JSON value or fails. *)
Variable parse : str -> option value.

(** The three steps word for word. Step 1 returns only when the direct
    parse "succeeds and yields an object"; "otherwise" (the parse failed,
    or it yielded a value that is no object) steps 2 and 3 run. *)
Definition extractObject (rawText : str) : failure + value :=
  let t := trim rawText in
  match parse t with
  | Some (VDict obj) => inr (VDict obj)
  | _ =>
      match brace_slice t with
      | Some candidate =>
          match parse candidate with
          | Some v => inr v
          | None => inl InvalidJson
          end
      | None => inl NoJsonFound
      end
  end.
End Worded.

(** The specification's view of [json.loads]: a value, or a failure. *)
Definition parse_of (json_loads : str -> loads_result) (s : str)
  : option value :=
  match json_loads s with
  | Loaded v => Some v
  | DecodeError | OtherError _ => None
  end.

(** How a run of the salvage ends when it does not return: with one of
    the two failures of the taxonomy, or with an exception of the parser
    that is no decode error and that nothing handles. *)
Inductive stop : Type :=
| Fails (f : failure)
| Escapes (cls : str).

Section Amended.
Variable json_loads : str -> loads_result.

(** The algorithm the code carries out: step 1 returns whatever the
    direct parse yields, object or not; steps 2 and 3 run only after a
    decode error; any other exception of the parser ends the run at the
    call that raised it. *)
Definition extractParsed (rawText : str) : stop + value :=
  let t := trim rawText in
  match json_loads t with
  | Loaded v => inr v
  | OtherError cls => inl (Escapes cls)
  | DecodeError =>
      match brace_slice t with
      | Some candidate =>
          match json_loads candidate with
          | Loaded v => inr v
          | DecodeError => inl (Fails InvalidJson)
          | OtherError cls => inl (Escapes cls)
          end
      | None => inl (Fails NoJsonFound)
      end
  end.
End Amended.

(** The worded outcome among the outcomes of a run. *)
Definition worded_outcome (r : failure + value) : stop + value :=
  match r with
  | inl f => inl (Fails f)
  | inr v => inr v
  end.

(** How the exceptions of the source read in the taxonomy. *)
Definition outcome (r : result value) : option (stop + value) :=
  match r with
  | Ok v => Some (inr v)
  | Raise ValueError => Some (inl (Fails NoJsonFound))
  | Raise JSONDecodeError => Some (inl (Fails InvalidJson))
  | Raise (LibraryError cls) => Some (inl (Escapes cls))
  | Raise _ => None
  end.

End SalvageSpec.

(** [p] is the first element of [l] whose key is the greatest: everything
    before it has a strictly smaller key, nothing after it has a greater
    one. *)
Definition first_greatest {A} (key : A -> Z * Z) (p : A) (l : list A) : Prop :=
  exists before after,
    l = before ++ p :: after /\
    (forall q, In q before -> key_ltb (key q) (key p) = true) /\
    (forall q, In q after -> key_leb (key q) (key p) = true).

(** A list in descending order of key. *)
Definition descending {A} (key : A -> Z * Z) (l : list A) : Prop :=
  StronglySorted (fun a b => key_leb (key b) (key a) = true) l.

(* ================================================================== *)
(** * Vocabulary of the statements *)
(* ================================================================== *)

(** The mappings among the items of a list, in order. *)
Fixpoint dicts_of (items : list value) : list dict :=
  match items with
  | [] => []
  | VDict d :: items' => d :: dicts_of items'
  | _ :: items' => dicts_of items'
  end.

(** What stripping does to one field: a null disappears, anything else,
    an empty container included, stays. *)
Definition drop_null (o : option value) : option value :=
  match o with
  | Some VNone => None
  | _ => o
  end.

(** [str(v)] in examples where it is never called. *)
Definition py_repr_unused : value -> str := fun _ => [].

(** The record of the skills example: ["Go", "", "  Rust  "]. *)
Definition example_skills : dict :=
  [ (lit "cv",
     VDict [ (lit "skills",
              VList [ VStr (lit "Go"); VStr (lit ""); VStr (lit "  Rust  ") ]) ]) ].

(** A record the validator lets through ("cv" is a key of it) whose
    contact_info is a string. *)
Definition example_contact_string : dict :=
  [ (lit "cv", VDict [ (lit "contact_info", VStr (lit "jane@example.org")) ]) ].

(** A sparse record: a name, one experience item next to a stray string,
    nothing else. *)
Definition example_sparse : dict :=
  [ (lit "cv",
     VDict [ (lit "name", VStr (lit "Jane"));
             (lit "experience",
              VList [ VStr (lit "stray");
                      VDict [ (lit "company", VStr (lit "Acme"));
                              (lit "start_date", VStr (lit "2020-03")) ] ]) ]) ].

(** The shape under which the projector does not raise: [cv] and
    [contact_info] are mappings when they are not falsy, and
    [experience], [education] and [skills] can be iterated over (a list,
    or a string or a mapping) when they are not falsy. *)
Definition is_iterable (v : value) : bool :=
  match v with
  | VList _ | VDict _ | VStr _ => true
  | _ => false
  end.

Definition well_shaped (structured : dict) : Prop :=
  exists cv contact,
    cv_of structured = VDict cv /\
    py_or (get cv (lit "contact_info")) (VDict []) = VDict contact /\
    is_iterable (py_or (get cv (lit "experience")) (VList [])) = true /\
    is_iterable (py_or (get cv (lit "education")) (VList [])) = true /\
    is_iterable (py_or (get cv (lit "skills")) (VList [])) = true.

(** ** Equality of records whatever the insertion order of their keys *)









(** The same record with its keys inserted in another order. *)
Definition example_ordered : dict :=
  [ (lit "cv",
     VDict [ (lit "name", VStr (lit "Jane"));
             (lit "contact_info", VDict [ (lit "email", VStr (lit "j@x.org"));
                                          (lit "github", VStr (lit "jane")) ]);
             (lit "skills", VList [ VStr (lit "Go") ]) ]) ].


(** ** The files of the selector examples *)

Definition a_md : Path := [lit "marker_out"; lit "a.md"].
Definition b_md : Path := [lit "marker_out"; lit "b.md"].
Definition resume_md : Path := [lit "marker_out"; lit "resume.md"].

Definition example_sizes (p : Path) : option N :=
  if str_eqb (name p) (lit "a.md") then Some 100%N
  else if str_eqb (name p) (lit "resume.md") then Some 50%N
  else if str_eqb (name p) (lit "b.md") then Some 200%N
  else None.

Definition example_listing_1 (_ : Path) : list Path := [a_md; resume_md].
Definition example_listing_2 (_ : Path) : list Path := [a_md; b_md].

(** ** Reading the source record *)

(** The value of a field of the record, [None] when it is absent: what a
    chain of [.get] calls returns. *)
Definition field (structured : dict) (path : list str) : value :=
  match lookup_path (VDict structured) path with
  | Some v => v
  | None => VNone
  end.

(** The mappings a list-valued field holds; a field that is not a list
    holds none. *)
Definition list_field_dicts (v : value) : list dict :=
  match v with
  | VList l => dicts_of l
  | _ => []
  end.

(** The dict literal of lines 222-229, given the [cv] and [contact]
    mappings. *)
Definition top_fields (cv contact : dict) : dict :=
  [ (lit "name", py_or (get cv (lit "name")) (VStr []));
    (lit "email", get contact (lit "email"));
    (lit "phone", get contact (lit "phone"));
    (lit "location", get contact (lit "location"));
    (lit "website", get contact (lit "website")) ].

(** The entry the skills section consists of. *)
Definition skills_section (kept : list str) : value :=
  VList [ VDict [ (lit "details", VStr (join (lit ", ") kept)) ] ].

(** ** The projections of the examples *)

Definition projection_of (structured : dict) : dict :=
  match convert_structured_to_rendercv_yaml py_repr_unused structured with
  | Ok out => out
  | Raise _ => []
  end.

Definition example_skills_out : dict :=
  Eval vm_compute in projection_of example_skills.

Definition example_sparse_out : dict :=
  Eval vm_compute in projection_of example_sparse.

Definition example_ordered_out : dict :=
  Eval vm_compute in projection_of example_ordered.

(** A record with one education item, its notes under [notes]. *)
Definition example_education : dict :=
  [ (lit "cv",
     VDict [ (lit "education",
              VList [ VDict [ (lit "institution", VStr (lit "MIT"));
                              (lit "degree", VNone);
                              (lit "notes", VList [VStr (lit "Honours")]) ] ]) ]) ].

Definition example_education_out : dict :=
  Eval vm_compute in projection_of example_education.

(** [json.loads] on three texts, and a decode error elsewhere: a number,
    a list that holds an object, and the empty object. *)
Definition example_json_loads (s : str) : loads_result :=
  if str_eqb s (lit "42") then Loaded (VInt 42)
  else if str_eqb s (lit "[1, {}]") then Loaded (VList [VInt 1; VDict []])
  else if str_eqb s (lit "{}") then Loaded (VDict [])
  else DecodeError.

(** A parser that knows the digit limit of [int]: an integer literal of
    more than 4300 digits raises a plain [ValueError]. *)
Definition digit_limit_loads (s : str) : loads_result :=
  if (forallb (fun c => (48 <=? c) && (c <=? 57))%N s
      && (4300 <? List.length s))%bool
  then OtherError (lit "ValueError")
  else DecodeError.
(* ================================================================== *)
(** * The generation client: [ollama_markdown_to_structured_json] *)
(* ================================================================== *)

(** [s.rstrip(c)] for a one-character set. *)
Fixpoint lstrip_char (c : N) (s : str) : str :=
  match s with
  | x :: s' => if N.eqb x c then lstrip_char c s' else s
  | [] => []
  end.

Definition rstrip_char (c : N) (s : str) : str := rev (lstrip_char c (rev s)).

Definition slash : N := 47.

(** [url = base_url.rstrip("/") + "/api/chat"] *)
Definition api_chat_url (base_url : str) : str :=
  rstrip_char slash base_url ++ lit "/api/chat".

(** [content] of lines 193-197: [message.content] of a mapping, [None]
    for a reply that is no mapping. *)
Definition reply_content (data : value) : result value :=
  match data with
  | VDict d => attr_get (py_or (get d (lit "message")) (VDict [])) (lit "content")
  | _ => Ok VNone
  end.

Section Ollama.

(** The module constant of lines 25-68. *)
Variable SYSTEM_PROMPT : str.

Variable json_loads : str -> loads_result.

(** [requests.post(url, json=payload, timeout=timeout_s)] followed by
    [raise_for_status()] and [json()]: the decoded body, or the exception
    the library raised. [requests] itself may be missing. *)
Variable transport_error : Type.
Variable post_json : str -> value -> Z -> transport_error + value.
Variable requests_installed : bool.

(** The request body of lines 175-187. *)
Definition payload (markdown_text model : str) : value :=
  VDict
    [ (lit "model", VStr model);
      (lit "messages",
       VList [ VDict [ (lit "role", VStr (lit "system"));
                       (lit "content", VStr SYSTEM_PROMPT) ];
               VDict [ (lit "role", VStr (lit "user"));
                       (lit "content", VStr markdown_text) ] ]);
      (lit "stream", VBool false);
      (lit "format", VStr (lit "json"));
      (lit "options", VDict [ (lit "temperature", VInt 0) ]) ].

(** Lines 193-205: from the decoded body to the validated record. *)
Definition structured_of_reply (data : value) : result dict :=
  content <- reply_content data ;;
  match content with
  | VStr text =>
      if truthy (VStr (strip text)) then
        obj <- _extract_json_object json_loads text ;;
        match obj with
        | VDict d => if has_key d (lit "cv") then Ok d else Raise RuntimeError
        | _ => Raise RuntimeError
        end
      else Raise RuntimeError
  | _ => Raise RuntimeError
  end.

Definition ollama_markdown_to_structured_json
  (markdown_text model base_url : str) (timeout_s : Z)
  : transport_error + result dict :=
  if requests_installed then
    match post_json (api_chat_url base_url) (payload markdown_text model)
            timeout_s with
    | inl e => inl e
    | inr data => inr (structured_of_reply data)
    end
  else inr (Raise RuntimeError).

End Ollama.

(* ================================================================== *)
(** * The working-directory layout: [build_paths] *)
(* ================================================================== *)

Record PipelinePaths : Type := {
  work_dir : Path;
  marker_out_dir : Path;
  markdown_path : Path;
  structured_json_path : Path;
  rendercv_yaml_path : Path
}.

(** [p / "component"] *)
Definition joinpath (p : Path) (component : str) : Path := p ++ [component].

Definition build_paths (work_dir : Path) : PipelinePaths :=
  let marker_out_dir := joinpath work_dir (lit "marker_out") in
  {| work_dir := work_dir;
     marker_out_dir := marker_out_dir;
     markdown_path := joinpath work_dir (lit "resume.md");
     structured_json_path := joinpath work_dir (lit "resume_data.json");
     rendercv_yaml_path := joinpath work_dir (lit "resume_data.rendercv.yaml") |}.

(* ================================================================== *)
(** * More vocabulary *)
(* ================================================================== *)

(** The capital of an ASCII small letter; any other character as it is. *)
Definition ascii_upper (c : N) : N :=
  if ((97 <=? c) && (c <=? 122))%N then (c - 32)%N else c.

(** An ASCII small letter. *)
Definition small_letter (p : N) : Prop := (97 <= p <= 122)%N.

(** The keys of [d] are those of [order] that it has, in that order. *)
Definition keys_in_order (d : dict) (order : list str) : Prop :=
  keys d = filter (has_key d) order.

(** All of [ws] is whitespace. *)
Definition blank (ws : str) : Prop := Forall (fun c => isspace c = true) ws.

(** A stand-in parser for examples: it knows the text of one object. *)
Definition example_loads (s : str) : loads_result :=
  if str_eqb s (lit "{'cv': {}}") then Loaded (VDict [(lit "cv", VDict [])])
  else DecodeError.

(** A reply whose message wraps the object in prose. *)
Definition example_reply : value :=
  VDict [ (lit "message",
           VDict [ (lit "role", VStr (lit "assistant"));
                   (lit "content",
                    VStr (lit "Sure! Here it is: {'cv': {}} Let me know.")) ]) ].

(** A reply whose message is a string, not a mapping. *)
Definition example_reply_string : value :=
  VDict [ (lit "message", VStr (lit "model not found")) ].

(** A record with both social links, the github one a number. *)
Definition example_social : dict :=
  [ (lit "cv",
     VDict [ (lit "contact_info",
              VDict [ (lit "github", VStr (lit "jane"));
                      (lit "linkedin", VStr (lit "jane-doe")) ]) ]) ].

Definition example_social_out : dict :=
  Eval vm_compute in projection_of example_social.

(** A record whose skills field is one string. *)
Definition example_skills_string : dict :=
  [ (lit "cv", VDict [ (lit "skills", VStr (lit "Go C")) ]) ].

Definition example_skills_string_out : dict :=
  Eval vm_compute in projection_of example_skills_string.

(** The sparse record with a field the projector does not know. *)
Definition example_sparse_extended : dict :=
  [ (lit "cv",
     VDict [ (lit "summary", VStr (lit "Engineer"));
             (lit "name", VStr (lit "Jane"));
             (lit "experience",
              VList [ VStr (lit "stray");
                      VDict [ (lit "company", VStr (lit "Acme"));
                              (lit "start_date", VStr (lit "2020-03")) ] ]) ]) ].

(* ================================================================== *)
(** * Proofs *)
(* ================================================================== *)

Unset Implicit Arguments.

(* ================================================================== *)
(** * Facts about strings *)
(* ================================================================== *)

Lemma str_eqb_spec (a b : str) : reflect (a = b) (str_eqb a b).
Proof.
  revert b. induction a as [|x a IH]; intros [|y b]; simpl;
    try (constructor; congruence).
  destruct (N.eqb_spec x y) as [->|Hxy]; simpl.
  - destruct (IH b) as [->|Hab]; constructor; congruence.
  - constructor; congruence.
Qed.

Lemma str_eqb_refl (a : str) : str_eqb a a = true.
Proof. destruct (str_eqb_spec a a); congruence. Qed.

Lemma str_eqb_eq (a b : str) : str_eqb a b = true <-> a = b.
Proof. destruct (str_eqb_spec a b); split; congruence. Qed.

Lemma str_eqb_neq (a b : str) : str_eqb a b = false <-> a <> b.
Proof. destruct (str_eqb_spec a b); split; congruence. Qed.

(** From here on keys are compared by the lemmas above or by evaluation
    of closed terms, never unfolded against a variable. *)
Arguments str_eqb : simpl never.
Arguments lit : simpl never.

(* ================================================================== *)
(** * Facts about dictionaries *)
(* ================================================================== *)

Lemma dict_get_In (d : dict) (k : str) (v : value) :
  dict_get d k = Some v -> In (k, v) d.
Proof.
  induction d as [|[k' v'] d IH]; simpl; [discriminate|].
  destruct (str_eqb_spec k' k) as [->|Hne]; intros H.
  - injection H as ->. now left.
  - right. auto.
Qed.

Lemma dict_get_None (d : dict) (k : str) :
  dict_get d k = None <-> ~ In k (keys d).
Proof.
  induction d as [|[k' v'] d IH]; simpl.
  - tauto.
  - destruct (str_eqb_spec k' k) as [->|Hne]; split.
    + discriminate.
    + intros H. exfalso. apply H. now left.
    + intros H [E|HIn]; [congruence|]. now apply IH in H.
    + intros H. apply IH. tauto.
Qed.

Lemma dict_set_fresh (d : dict) (k : str) (v : value) :
  ~ In k (keys d) -> dict_set d k v = d ++ [(k, v)].
Proof.
  induction d as [|[k' v'] d IH]; simpl; intros H; [reflexivity|].
  destruct (str_eqb_spec k' k) as [->|Hne]; [tauto|].
  rewrite IH; tauto.
Qed.

Lemma dict_get_app_other (d : dict) (k k' : str) (v : value) :
  k' <> k -> dict_get (d ++ [(k', v)]) k = dict_get d k.
Proof.
  intros Hne. induction d as [|[k0 v0] d IH]; simpl.
  - destruct (str_eqb_spec k' k); [contradiction|reflexivity].
  - now rewrite IH.
Qed.

Lemma dict_get_set_same (d : dict) (k : str) (v : value) :
  dict_get (dict_set d k v) k = Some v.
Proof.
  induction d as [|[k' v'] d IH]; simpl.
  - now rewrite str_eqb_refl.
  - destruct (str_eqb_spec k' k) as [->|Hne]; simpl.
    + now rewrite str_eqb_refl.
    + destruct (str_eqb_spec k' k); [contradiction|exact IH].
Qed.

Lemma dict_get_set_other (d : dict) (k k' : str) (v : value) :
  k <> k' -> dict_get (dict_set d k v) k' = dict_get d k'.
Proof.
  intros Hne. induction d as [|[k0 v0] d IH]; simpl.
  - destruct (str_eqb_spec k k'); [contradiction|reflexivity].
  - destruct (str_eqb_spec k0 k) as [->|H0]; simpl.
    + destruct (str_eqb_spec k k'); [contradiction|reflexivity].
    + now rewrite IH.
Qed.

Lemma strip_none_acc (d acc : dict) :
  NoDup (keys (acc ++ d)) ->
  fold_left
    (fun out kv => if is_none (snd kv) then out else dict_set out (fst kv) (snd kv))
    d acc
  = acc ++ filter not_none d.
Proof.
  revert acc. induction d as [|[k v] d IH]; intros acc Hnd; simpl.
  - now rewrite app_nil_r.
  - unfold keys in Hnd. rewrite map_app in Hnd. simpl in Hnd.
    pose proof (NoDup_remove_2 _ _ _ Hnd) as Hk.
    pose proof (NoDup_remove_1 _ _ _ Hnd) as Hrest.
    unfold not_none at 1. simpl. destruct (is_none v) eqn:Ev; simpl.
    + apply IH. unfold keys. now rewrite map_app.
    + rewrite dict_set_fresh.
      * rewrite IH.
        -- now rewrite <- app_assoc.
        -- unfold keys. rewrite !map_app. simpl.
           rewrite <- app_assoc. exact Hnd.
      * intros HIn. apply Hk. apply in_or_app. now left.
Qed.

(** On a dict (whose keys are distinct) stripping is a filter. *)
Lemma strip_none_filter (d : dict) :
  NoDup (keys d) -> _strip_none_fields d = filter not_none d.
Proof.
  intros H. unfold _strip_none_fields. now rewrite strip_none_acc.
Qed.

Lemma dict_get_filter_not_none (d : dict) (k : str) :
  NoDup (keys d) ->
  dict_get (filter not_none d) k =
  drop_null (dict_get d k).
Proof.
  induction d as [|[k' v'] d IH]; simpl; intros Hnd; [reflexivity|].
  inversion Hnd as [|? ? Hk Hd]; subst.
  unfold not_none at 1. simpl.
  unfold drop_null.
  destruct (str_eqb_spec k' k) as [->|Hne].
  - destruct v'; simpl; rewrite ?str_eqb_refl; try reflexivity.
    rewrite IH by assumption.
    apply dict_get_None in Hk. now rewrite Hk.
  - destruct (is_none v'); simpl.
    + now apply IH.
    + destruct (str_eqb_spec k' k); [contradiction|now apply IH].
Qed.

(** What [_strip_none_fields] does to a lookup. *)
Lemma dict_get_strip_none (d : dict) (k : str) :
  NoDup (keys d) ->
  dict_get (_strip_none_fields d) k =
  drop_null (dict_get d k).
Proof.
  intros H. rewrite strip_none_filter by assumption.
  now apply dict_get_filter_not_none.
Qed.

Lemma strip_none_no_null (d : dict) (k : str) :
  NoDup (keys d) -> dict_get (_strip_none_fields d) k <> Some VNone.
Proof.
  intros H. rewrite dict_get_strip_none by assumption.
  destruct (dict_get d k) as [[]|]; simpl; congruence.
Qed.

Lemma distinct_NoDup (l : list str) : distinct l = true -> NoDup l.
Proof.
  induction l as [|k l IH]; simpl; intros H; constructor.
  - apply andb_prop in H as [H _]. intros HIn.
    apply negb_true_iff in H.
    assert (existsb (str_eqb k) l = true); [|congruence].
    apply existsb_exists. exists k. split; [assumption|apply str_eqb_refl].
  - apply IH. now apply andb_prop in H as [_ H].
Qed.

Ltac literal_keys := apply distinct_NoDup; reflexivity.

(* ================================================================== *)
(** * The salvage parser against the specified algorithm *)
(* ================================================================== *)

Module SalvageProofs.
Import SalvageSpec.

Lemma lstrip_trim_left (s : str) : lstrip s = trim_left s.
Proof.
  induction s as [|c s IH]; simpl; [reflexivity|].
  now rewrite IH.
Qed.

Lemma lstrip_snoc (l : str) (c : N) :
  lstrip (l ++ [c]) =
  match lstrip l with
  | [] => if isspace c then [] else [c]
  | t => t ++ [c]
  end.
Proof.
  induction l as [|x l IH]; simpl; [reflexivity|].
  destruct (isspace x); [exact IH|reflexivity].
Qed.

Lemma rstrip_trim_right (s : str) : rstrip s = trim_right s.
Proof.
  unfold rstrip. induction s as [|c s IH]; simpl; [reflexivity|].
  rewrite lstrip_snoc.
  assert (E : lstrip (rev s) = rev (trim_right s))
    by (rewrite <- IH; now rewrite rev_involutive).
  rewrite E. destruct (trim_right s) as [|y t]; simpl.
  - now destruct (isspace c).
  - assert (Hne : rev t ++ [y] <> []) by (now destruct (rev t)).
    destruct (rev t ++ [y]) as [|z u] eqn:Et; [congruence|].
    change (rev ((z :: u) ++ [c]) = c :: y :: t).
    rewrite <- Et, !rev_app_distr, rev_involutive. reflexivity.
Qed.

Lemma strip_trim (s : str) : strip s = trim s.
Proof.
  unfold strip, trim. now rewrite rstrip_trim_right, lstrip_trim_left.
Qed.

Lemma find_from_first_index (c : N) (s : str) (i : Z) :
  find_from c s i =
  match first_index c s with
  | Some n => (i + Z.of_nat n)%Z
  | None => (-1)%Z
  end.
Proof.
  revert i. induction s as [|x s IH]; intros i; simpl; [reflexivity|].
  destruct (N.eqb x c); simpl; [lia|].
  rewrite IH. destruct (first_index c s); simpl; [lia|reflexivity].
Qed.

Lemma find_from_absent (c : N) (s : str) (i : Z) :
  ~ In c s -> find_from c s i = (-1)%Z.
Proof.
  revert i. induction s as [|x s IH]; intros i Hc; simpl; [reflexivity|].
  destruct (N.eqb_spec x c) as [->|Hne].
  - exfalso. apply Hc. now left.
  - apply IH. intros H. apply Hc. now right.
Qed.

Lemma rfind_from_last_index (c : N) (s : str) (i last : Z) :
  rfind_from c s i last =
  match last_index c s with
  | Some n => (i + Z.of_nat n)%Z
  | None => last
  end.
Proof.
  revert i last. induction s as [|x s IH]; intros i last; simpl;
    [reflexivity|].
  rewrite IH. destruct (last_index c s); [lia|].
  destruct (N.eqb x c); [lia|reflexivity].
Qed.

Lemma last_index_lt (c : N) (s : str) (j : nat) :
  last_index c s = Some j -> j < List.length s.
Proof.
  revert j. induction s as [|x s IH]; intros j; simpl; [discriminate|].
  destruct (last_index c s) as [j'|].
  - intros [= <-]. specialize (IH j' eq_refl). lia.
  - destruct (N.eqb x c); [intros [= <-]; lia|discriminate].
Qed.

Lemma slice_between (s : str) (i j : nat) :
  i <= j -> j < List.length s ->
  slice s (Z.of_nat i) (Z.of_nat j + 1) = between i j s.
Proof.
  intros Hij Hj. unfold slice, between, slice_bound.
  destruct (Z.ltb_spec (Z.of_nat i) 0); [lia|].
  destruct (Z.ltb_spec (Z.of_nat j + 1) 0); [lia|].
  rewrite !Z.min_r by lia. rewrite !Z.max_r by lia.
  replace (Z.to_nat (Z.of_nat j + 1 - Z.of_nat i)) with (j - i + 1) by lia.
  now rewrite Nat2Z.id.
Qed.

End SalvageProofs.

Section SalvageCorrect.
Import SalvageSpec SalvageProofs.
Variable json_loads : str -> loads_result.

(** The test of line 155 and the slice of line 158 are the slice from
    the first opening brace to the last closing one. *)
Lemma guard_brace_slice (t : str) :
  (if ((find t lbrace =? -1) || (rfind t rbrace =? -1)
       || (rfind t rbrace <=? find t lbrace))%Z
   then None
   else Some (slice t (find t lbrace) (rfind t rbrace + 1)%Z))
  = brace_slice t.
Proof.
  unfold find, rfind, brace_slice.
  rewrite find_from_first_index, rfind_from_last_index.
  destruct (first_index lbrace t) as [i|] eqn:Ei; simpl;
    [|destruct (last_index rbrace t); reflexivity].
  destruct (last_index rbrace t) as [j|] eqn:Ej; simpl.
  - destruct (Z.eqb_spec (Z.of_nat i) (-1)); [lia|].
    destruct (Z.eqb_spec (Z.of_nat j) (-1)); [lia|]. simpl.
    destruct (Z.leb_spec (Z.of_nat j) (Z.of_nat i));
      destruct (Nat.ltb_spec i j); try lia; [reflexivity|].
    now rewrite slice_between by (eauto using last_index_lt; lia).
  - destruct (Z.eqb_spec (Z.of_nat i) (-1)); reflexivity.
Qed.

(** After a decode error of the direct parse, the function parses the
    brace slice, or raises the [ValueError] of line 156 when there is
    none. *)
Lemma extract_after_decode_error (text : str) :
  json_loads (strip text) = DecodeError ->
  _extract_json_object json_loads text
  = match brace_slice (trim text) with
    | Some candidate => return_loaded (json_loads candidate)
    | None => Raise ValueError
    end.
Proof.
  intros Hp. unfold _extract_json_object. rewrite Hp.
  rewrite <- (guard_brace_slice (trim text)), <- strip_trim.
  now destruct ((find (strip text) lbrace =? -1)
                || (rfind (strip text) rbrace =? -1)
                || (rfind (strip text) rbrace <=? find (strip text) lbrace))%Z.
Qed.

(** C2. As the code has it: [_extract_json_object] strips the text and
    parses it directly; whatever that parse yields is returned, an object
    or not. Only a decode error of the direct parse leads on: the text
    from the first opening brace to the last closing brace, both
    included, is parsed; the failure is NoJsonFound ([ValueError]) when a
    brace is missing or the last closing brace is not after the first
    opening one, and InvalidJson ([json.JSONDecodeError]) when the slice
    does not decode. An exception of the parser that is no decode error
    leaves the function from either call, without any salvage. Nothing
    else is raised. *)
Theorem extract_json_object_algorithm (text : str) :
  outcome (_extract_json_object json_loads text)
  = Some (extractParsed json_loads text).
Proof.
  unfold extractParsed. rewrite <- strip_trim.
  destruct (json_loads (strip text)) as [v| |cls] eqn:Hp.
  - unfold _extract_json_object. now rewrite Hp.
  - rewrite (extract_after_decode_error text Hp), <- strip_trim.
    destruct (brace_slice (strip text)) as [candidate|]; [|reflexivity].
    destruct (json_loads candidate); reflexivity.
  - unfold _extract_json_object. now rewrite Hp.
Qed.

(** Where the direct parse yields an object or a decode error, and the
    parser raises nothing but decode errors, the code and the three
    steps as worded agree. *)
Lemma extract_as_worded (text : str) :
  (forall v, json_loads (strip text) = Loaded v -> exists obj, v = VDict obj) ->
  (forall s cls, json_loads s <> OtherError cls) ->
  outcome (_extract_json_object json_loads text)
  = Some (worded_outcome (extractObject (parse_of json_loads) text)).
Proof.
  intros Hobj Hother. unfold extractObject, parse_of.
  rewrite <- strip_trim.
  destruct (json_loads (strip text)) as [v| |cls] eqn:Hp.
  - destruct (Hobj v eq_refl) as [obj ->].
    unfold _extract_json_object. now rewrite Hp.
  - rewrite (extract_after_decode_error text Hp), <- strip_trim.
    destruct (brace_slice (strip text)) as [candidate|]; [|reflexivity].
    destruct (json_loads candidate) as [v| |cls] eqn:Hc; try reflexivity.
    now destruct (Hother candidate cls).
  - now destruct (Hother (strip text) cls).
Qed.

(** The fast path hands back whatever the text parses to; whether that
    is a mapping is checked by the caller. *)
Lemma extract_fast_path (text : str) (v : value) :
  json_loads (strip text) = Loaded v ->
  _extract_json_object json_loads text = Ok v.
Proof. intros H. unfold _extract_json_object. now rewrite H. Qed.

(** An exception of the direct parse that is no decode error is not
    caught by line 149. *)
Lemma extract_direct_parse_raises (text cls : str) :
  json_loads (strip text) = OtherError cls ->
  _extract_json_object json_loads text = Raise (LibraryError cls).
Proof. intros H. unfold _extract_json_object. now rewrite H. Qed.

(** Text that is no JSON and has no opening brace: NoJsonFound. *)
Lemma extract_without_brace (text : str) :
  json_loads (strip text) = DecodeError ->
  ~ In lbrace (strip text) ->
  _extract_json_object json_loads text = Raise ValueError.
Proof.
  intros Hp Hb. unfold _extract_json_object. rewrite Hp.
  unfold find. now rewrite (find_from_absent _ _ 0%Z Hb).
Qed.

End SalvageCorrect.

(** C2. Where the code leaves the wording: the text [42] is JSON and no
    object: the code returns the number, the three steps as worded go on
    to the braces and end in NoJsonFound. The text [[1, {}]] is a list:
    the code returns the list, the steps as worded return the object
    sliced out of it. *)
Lemma extract_returns_non_object :
  (_extract_json_object example_json_loads (lit "42") = Ok (VInt 42) /\
   SalvageSpec.extractObject (SalvageSpec.parse_of example_json_loads)
     (lit "42")
   = inl SalvageSpec.NoJsonFound) /\
  (_extract_json_object example_json_loads (lit " [1, {}] ")
   = Ok (VList [VInt 1; VDict []]) /\
   SalvageSpec.extractObject (SalvageSpec.parse_of example_json_loads)
     (lit " [1, {}] ")
   = inr (VDict [])).
Proof. repeat split; vm_compute; reflexivity. Qed.

(** An integer literal of 4301 digits: the parser's plain [ValueError]
    passes the handler of line 149, and no brace is looked for. *)
Example extract_digit_limit :
  _extract_json_object digit_limit_loads (repeat 57%N 4301)
  = Raise (LibraryError (lit "ValueError")).
Proof. vm_compute. reflexivity. Qed.

(** The slice taken out of a reply with prose around the object. *)
Example salvage_slice :
  let text := strip (lit "Sure! Here is the JSON: {'cv': {}} Let me know! ") in
  slice text (find text lbrace) (rfind text rbrace + 1) = lit "{'cv': {}}".
Proof. reflexivity. Qed.

(* ================================================================== *)
(** * The artifact selector *)
(* ================================================================== *)

Lemma key_ltb_spec (a b : Z * Z) :
  key_ltb a b = true <->
  (fst a < fst b \/ (fst a = fst b /\ snd a < snd b))%Z.
Proof.
  unfold key_ltb.
  rewrite orb_true_iff, andb_true_iff, !Z.ltb_lt, Z.eqb_eq. tauto.
Qed.

Lemma key_leb_spec (a b : Z * Z) :
  key_leb a b = true <->
  (fst a < fst b \/ (fst a = fst b /\ snd a <= snd b))%Z.
Proof.
  unfold key_leb. rewrite negb_true_iff.
  destruct (key_ltb b a) eqn:E.
  - apply key_ltb_spec in E. split; [discriminate|lia].
  - split; [intros _|reflexivity].
    assert (H : ~ (fst b < fst a \/ (fst b = fst a /\ snd b < snd a))%Z).
    { intros H. apply key_ltb_spec in H. congruence. }
    lia.
Qed.

Lemma key_ltb_leb (a b : Z * Z) : key_ltb a b = true -> key_leb a b = true.
Proof. rewrite key_ltb_spec, key_leb_spec. lia. Qed.

Lemma key_leb_trans (a b c : Z * Z) :
  key_leb a b = true -> key_leb b c = true -> key_leb a c = true.
Proof. rewrite !key_leb_spec. lia. Qed.

Lemma key_leb_total (a b : Z * Z) :
  key_ltb a b = false -> key_leb b a = true.
Proof. unfold key_leb. now intros ->. Qed.

(** The name bias outranks the size. *)
Lemma bias_outranks_size (s1 s2 : Z) : key_ltb (0%Z, s1) (1%Z, s2) = true.
Proof. apply key_ltb_spec. simpl. lia. Qed.

Section SortFacts.
Variable A : Type.
Variable key : A -> Z * Z.

Lemma insert_desc_In (x y : A) (l : list A) :
  In y (insert_desc key x l) <-> y = x \/ In y l.
Proof.
  induction l as [|z l IH]; simpl.
  - intuition congruence.
  - destruct (key_ltb (key x) (key z)); simpl; rewrite ?IH;
      intuition congruence.
Qed.

Lemma insert_desc_sorted (x : A) (l : list A) :
  descending key l -> descending key (insert_desc key x l).
Proof.
  unfold descending. induction 1 as [|z l Hl IH Hz]; simpl.
  - repeat constructor.
  - destruct (key_ltb (key x) (key z)) eqn:E.
    + constructor; [exact IH|].
      apply Forall_forall. intros y Hy.
      apply insert_desc_In in Hy as [->|Hy].
      * now apply key_ltb_leb.
      * rewrite Forall_forall in Hz. auto.
    + constructor; [now constructor|].
      constructor; [now apply key_leb_total|].
      rewrite Forall_forall in Hz |- *. intros y Hy.
      eapply key_leb_trans; [apply Hz, Hy|now apply key_leb_total].
Qed.

(** The model of [sort] orders by descending key ... *)
Lemma sort_desc_sorted (l : list A) : descending key (sort_desc key l).
Proof.
  induction l as [|x l IH]; simpl; [constructor|].
  now apply insert_desc_sorted.
Qed.

Lemma sort_desc_In (y : A) (l : list A) : In y (sort_desc key l) <-> In y l.
Proof.
  induction l as [|x l IH]; simpl; [tauto|].
  rewrite insert_desc_In, IH. intuition congruence.
Qed.

Lemma insert_desc_perm (x : A) (l : list A) :
  Permutation (insert_desc key x l) (x :: l).
Proof.
  induction l as [|z l IH]; simpl; [reflexivity|].
  destruct (key_ltb (key x) (key z)); [|reflexivity].
  rewrite IH. apply perm_swap.
Qed.

(** ... keeps every element, as often as it occurs ... *)
Lemma sort_desc_perm (l : list A) : Permutation (sort_desc key l) l.
Proof.
  induction l as [|x l IH]; simpl; [reflexivity|].
  rewrite insert_desc_perm. now constructor.
Qed.

Lemma insert_desc_filter (p : Z * Z -> bool) (x : A) (l : list A) :
  (forall a b, key_ltb a b = true -> p a = true -> p b = false) ->
  filter (fun y => p (key y)) (insert_desc key x l)
  = filter (fun y => p (key y)) (x :: l).
Proof.
  intros Hp. induction l as [|z l IH]; [reflexivity|].
  simpl insert_desc. destruct (key_ltb (key x) (key z)) eqn:E; [|reflexivity].
  simpl in *. rewrite IH.
  destruct (p (key x)) eqn:Px; [|reflexivity].
  now rewrite (Hp _ _ E Px).
Qed.

(** ... and is stable: the elements of one key keep their order. *)
Lemma sort_desc_stable (k : Z * Z) (l : list A) :
  filter (fun y => key_leb (key y) k && key_leb k (key y)) (sort_desc key l)
  = filter (fun y => key_leb (key y) k && key_leb k (key y)) l.
Proof.
  induction l as [|x l IH]; [reflexivity|].
  simpl sort_desc.
  rewrite (insert_desc_filter (fun a => key_leb a k && key_leb k a)).
  - simpl. now rewrite IH.
  - intros a b Hab Ha. apply andb_prop in Ha as [Ha1 Ha2].
    apply andb_false_iff. left.
    apply key_ltb_spec in Hab. apply key_leb_spec in Ha2.
    destruct (key_leb b k) eqn:E; [|reflexivity].
    apply key_leb_spec in E. lia.
Qed.

Lemma first_greatest_le (p : A) (l : list A) (q : A) :
  first_greatest key p l -> In q l -> key_leb (key q) (key p) = true.
Proof.
  intros (before & after & -> & Hb & Ha) HIn.
  apply in_app_or in HIn as [HIn|[<-|HIn]].
  - now apply key_ltb_leb, Hb.
  - apply key_leb_spec. lia.
  - now apply Ha.
Qed.

(** The head of the sorted list is the first greatest element. *)
Lemma sort_desc_head (l : list A) :
  l <> [] ->
  exists p rest, sort_desc key l = p :: rest /\ first_greatest key p l.
Proof.
  induction l as [|x l IH]; [congruence|intros _].
  destruct l as [|y l].
  - exists x, []. split; [reflexivity|].
    exists [], []. simpl. intuition.
  - destruct IH as (p & rest & Hs & Hp); [congruence|].
    change (sort_desc key (x :: y :: l))
      with (insert_desc key x (sort_desc key (y :: l))).
    rewrite Hs. simpl.
    destruct (key_ltb (key x) (key p)) eqn:E.
    + exists p, (insert_desc key x rest). split; [reflexivity|].
      destruct Hp as (before & after & Hl & Hb & Ha).
      exists (x :: before), after. rewrite Hl. split; [reflexivity|].
      split; [|exact Ha].
      intros q [<-|Hq]; auto.
    + exists x, (p :: rest). split; [reflexivity|].
      exists [], (y :: l). split; [reflexivity|].
      split; [intros q []|].
      intros q Hq. eapply key_leb_trans.
      * eapply first_greatest_le; eauto.
      * now apply key_leb_total.
Qed.

End SortFacts.

Lemma find_best_markdown_head
  (rglob_md : Path -> list Path) (st_size : Path -> option N) (dir : Path) :
  rglob_md dir <> [] ->
  exists p,
    _find_best_markdown rglob_md st_size dir = Ok p /\
    first_greatest (score st_size) p (rglob_md dir).
Proof.
  intros Hne. unfold _find_best_markdown.
  destruct (sort_desc_head _ (score st_size) _ Hne) as (p & rest & Hs & Hp).
  exists p. rewrite Hs.
  destruct (rglob_md dir); [congruence|]. simpl. auto.
Qed.

(** C6. Whatever the file system, when the listing is not empty the
    selector returns the first file, in listing order, whose key
    (name matches cv/resume, size in bytes) is the greatest, the name
    bias compared before the size: every file listed before it has a
    strictly smaller key and no file listed after it a greater one.
    With a.md of 100 bytes and resume.md of 50 bytes it returns
    resume.md; with a.md of 100 bytes and b.md of 200 bytes, b.md. *)
Theorem find_best_markdown_selects :
  (forall (rglob_md : Path -> list Path) (st_size : Path -> option N)
          (dir : Path),
      rglob_md dir <> [] ->
      exists p,
        _find_best_markdown rglob_md st_size dir = Ok p /\
        first_greatest (score st_size) p (rglob_md dir)) /\
  _find_best_markdown example_listing_1 example_sizes [lit "marker_out"]
    = Ok resume_md /\
  _find_best_markdown example_listing_2 example_sizes [lit "marker_out"]
    = Ok b_md.
Proof.
  split; [exact find_best_markdown_head|].
  split; reflexivity.
Qed.

Lemma find_best_markdown_selects_witness :
  example_listing_1 [lit "marker_out"] <> [] /\
  exists p,
    _find_best_markdown example_listing_1 example_sizes [lit "marker_out"]
      = Ok p /\
    first_greatest (score example_sizes) p
      (example_listing_1 [lit "marker_out"]).
Proof.
  assert (H : example_listing_1 [lit "marker_out"] <> [])
    by (unfold example_listing_1; discriminate).
  split; [exact H|].
  exact (proj1 find_best_markdown_selects
           example_listing_1 example_sizes [lit "marker_out"] H).
Defined.

(** An empty listing is the only failure. *)
Lemma find_best_markdown_no_files
  (rglob_md : Path -> list Path) (st_size : Path -> option N) (dir : Path) :
  rglob_md dir = [] ->
  _find_best_markdown rglob_md st_size dir = Raise RuntimeError.
Proof. unfold _find_best_markdown. now intros ->. Qed.

(* ================================================================== *)
(** * The schema projector *)
(* ================================================================== *)

Lemma bind_Ok {A B} (m : result A) (f : A -> result B) (b : B) :
  bind m f = Ok b -> exists a, m = Ok a /\ f a = Ok b.
Proof. destruct m as [a|e]; simpl; [eauto|discriminate]. Qed.

Lemma attr_get_Ok (v : value) (k : str) (x : value) :
  attr_get v k = Ok x -> exists d, v = VDict d /\ x = get d k.
Proof. destruct v; simpl; try discriminate. intros [= <-]. eauto. Qed.

Tactic Notation "bind_inv" hyp(H) "as" ident(a) ident(Ha) :=
  apply bind_Ok in H; destruct H as (a & Ha & H).

(** ** Lookups along paths *)

Lemma lookup_get (d : dict) (k k' : str) (path : list str) :
  lookup_path (VDict d) (k :: k' :: path) = lookup_path (get d k) (k' :: path).
Proof.
  unfold get. simpl. destruct (dict_get d k) as [x|]; reflexivity.
Qed.

Lemma lookup_py_or_dict (x : value) (c : dict) (k : str) (path : list str) :
  py_or x (VDict []) = VDict c ->
  lookup_path x (k :: path) = lookup_path (VDict c) (k :: path).
Proof.
  unfold py_or. destruct (truthy x) eqn:E; [now intros ->|].
  intros [= <-]. destruct x as [| | | | | |d]; try reflexivity.
  destruct d; [reflexivity|discriminate].
Qed.

Lemma lookup_cv (structured cv : dict) (k : str) (path : list str) :
  cv_of structured = VDict cv ->
  lookup_path (VDict structured) (lit "cv" :: k :: path)
  = lookup_path (VDict cv) (k :: path).
Proof.
  intros H. rewrite lookup_get. now apply lookup_py_or_dict.
Qed.

(** A field of the record's [cv], as the projector reads it. *)
Lemma get_cv_field (structured cv : dict) (k : str) :
  cv_of structured = VDict cv ->
  dict_get cv k = lookup_path (VDict structured) [lit "cv"; k].
Proof.
  intros H. rewrite (lookup_cv structured cv k [] H). simpl.
  destruct (dict_get cv k); reflexivity.
Qed.

(** A field of the record's [contact_info], as the projector reads it. *)
Lemma get_contact_field (structured cv contact : dict) (k : str) :
  cv_of structured = VDict cv ->
  py_or (get cv (lit "contact_info")) (VDict []) = VDict contact ->
  dict_get contact k
  = lookup_path (VDict structured) [lit "cv"; lit "contact_info"; k].
Proof.
  intros Hcv Hc. rewrite (lookup_cv structured cv (lit "contact_info") [k] Hcv), lookup_get.
  rewrite (lookup_py_or_dict _ contact k [] Hc). simpl.
  destruct (dict_get contact k); reflexivity.
Qed.

(** ** The entry loops *)

Lemma collect_entries_acc (entry : dict -> dict) (items acc : list value) :
  fold_left
    (fun entries item =>
       match item with
       | VDict d => entries ++ [VDict (entry d)]
       | _ => entries
       end)
    items acc
  = acc ++ List.map (fun d => VDict (entry d)) (dicts_of items).
Proof.
  revert acc. induction items as [|item items IH]; intros acc; simpl.
  - now rewrite app_nil_r.
  - destruct item; rewrite IH; try reflexivity.
    now rewrite <- app_assoc.
Qed.

(** The loop keeps the mappings, in order, and turns each into its entry;
    anything else is skipped. *)
Lemma collect_entries_dicts (entry : dict -> dict) (items : list value) :
  collect_entries entry items
  = List.map (fun d => VDict (entry d)) (dicts_of items).
Proof. unfold collect_entries. now rewrite collect_entries_acc. Qed.

Lemma dicts_of_strings {A} (f : A -> str) (l : list A) :
  dicts_of (List.map (fun x => VStr (f x)) l) = [].
Proof. induction l; simpl; auto. Qed.

Lemma In_dicts_of (d : dict) (items : list value) :
  In d (dicts_of items) <-> In (VDict d) items.
Proof.
  induction items as [|x items IH]; simpl; [tauto|].
  destruct x; simpl; rewrite IH; intuition (try discriminate; congruence).
Qed.

(** What the iteration of a field yields, by the kind of the field. *)
Lemma dicts_of_iterate (v : value) (items : list value) :
  iterate (py_or v (VList [])) = Ok items ->
  dicts_of items = match v with VList l => dicts_of l | _ => [] end.
Proof.
  unfold py_or. destruct (truthy v) eqn:E.
  - destruct v; simpl; try discriminate; intros [= <-]; try reflexivity.
    + apply (dicts_of_strings (fun c => [c])).
    + apply (dicts_of_strings fst).
  - simpl. intros [= <-]. destruct v as [| | | | |l|]; try reflexivity.
    destruct l; [reflexivity|discriminate].
Qed.

(** ** One projected entry *)

Lemma experience_entry_get (item : dict) (k : str) :
  dict_get (experience_entry item) k =
  drop_null
    (dict_get
       [ (lit "company", py_or (get item (lit "company")) (VStr []));
         (lit "position", get item (lit "position"));
         (lit "location", get item (lit "location"));
         (lit "start_date", get item (lit "start_date"));
         (lit "end_date", get item (lit "end_date"));
         (lit "highlights", py_or (get item (lit "highlights")) (VList [])) ]
       k).
Proof.
  unfold experience_entry. apply dict_get_strip_none. literal_keys.
Qed.

Lemma education_entry_get (item : dict) (k : str) :
  dict_get (education_entry item) k =
  drop_null
    (dict_get
       [ (lit "institution", py_or (get item (lit "institution")) (VStr []));
         (lit "degree", get item (lit "degree"));
         (lit "field", get item (lit "field"));
         (lit "location", get item (lit "location"));
         (lit "start_date", get item (lit "start_date"));
         (lit "end_date", get item (lit "end_date"));
         (lit "highlights", py_or (get item (lit "notes")) (VList [])) ]
       k).
Proof.
  unfold education_entry. apply dict_get_strip_none. literal_keys.
Qed.

Lemma drop_null_get (item : dict) (k : str) :
  drop_null (Some (get item k)) = drop_null (dict_get item k).
Proof. unfold get. destruct (dict_get item k) as [[]|]; reflexivity. Qed.

Lemma py_or_not_none (x d : value) : d <> VNone -> py_or x d <> VNone.
Proof.
  intros H. unfold py_or. destruct (truthy x) eqn:E; [|exact H].
  destruct x; simpl in E; congruence.
Qed.

Lemma drop_null_py_or (x d : value) :
  d <> VNone -> drop_null (Some (py_or x d)) = Some (py_or x d).
Proof.
  intros H. pose proof (py_or_not_none x d H).
  destruct (py_or x d); simpl; congruence.
Qed.

(** ** The skills comprehension *)

Lemma keep_skill_iff (v : value) :
  keep_skill v = true <-> exists s, v = VStr s /\ strip s <> [].
Proof.
  destruct v; simpl; split; try discriminate;
    try (intros (s0 & E & _); discriminate).
  - intros H. exists s. split; [reflexivity|].
    destruct (strip s); [discriminate|congruence].
  - intros (s0 & [= <-] & H). destruct (strip s); [congruence|reflexivity].
Qed.

(** The skills kept are strings, so joining them cannot fail. *)
Lemma kept_skills_strings (l : list value) :
  exists kept,
    filter keep_skill l = List.map VStr kept /\
    str_items (filter keep_skill l) = Ok kept /\
    Forall (fun s => strip s <> []) kept.
Proof.
  induction l as [|v l (kept & E & Hs & Hk)]; simpl.
  - exists []. repeat split; constructor.
  - destruct (keep_skill v) eqn:Ev; [|exists kept; auto].
    apply keep_skill_iff in Ev as (s & -> & Hne).
    exists (s :: kept). simpl. rewrite Hs, E. simpl.
    repeat split. now constructor.
Qed.

Section ProjectorFacts.
Variable py_repr : value -> str.

(** ** The top-level mapping *)

Lemma social_entry_total (contact : dict) (key network : str) :
  exists l, social_entry py_repr (VDict contact) key network = Ok l.
Proof.
  unfold social_entry. simpl. unfold get.
  destruct (dict_get contact key) as [x|]; simpl; [|eauto].
  destruct (truthy x); eauto.
Qed.

Lemma social_networks_total (contact : dict) :
  exists l, social_networks py_repr (VDict contact) = Ok l.
Proof.
  unfold social_networks.
  destruct (social_entry_total contact (lit "linkedin") (lit "LinkedIn"))
    as (l & ->).
  destruct (social_entry_total contact (lit "github") (lit "GitHub"))
    as (g & ->).
  simpl. eauto.
Qed.

Lemma rendercv_cv_dict (cv contact : dict) :
  py_or (get cv (lit "contact_info")) (VDict []) = VDict contact ->
  exists social,
    social_networks py_repr (VDict contact) = Ok social /\
    rendercv_cv py_repr (VDict cv)
    = Ok (if nonempty social
          then top_fields cv contact
                 ++ [(lit "social_networks", VList social)]
          else top_fields cv contact).
Proof.
  intros Hc. destruct (social_networks_total contact) as (social & Hs).
  exists social. split; [exact Hs|].
  unfold rendercv_cv. simpl. rewrite Hc. simpl. rewrite Hs. simpl.
  reflexivity.
Qed.

Lemma rendercv_cv_inv (cv : value) (top : dict) :
  rendercv_cv py_repr cv = Ok top ->
  exists c contact social,
    cv = VDict c /\
    py_or (get c (lit "contact_info")) (VDict []) = VDict contact /\
    top = (if nonempty social
           then top_fields c contact ++ [(lit "social_networks", VList social)]
           else top_fields c contact).
Proof.
  intros H. pose proof H as H0. unfold rendercv_cv in H.
  bind_inv H as ci Hci. apply attr_get_Ok in Hci as (c & -> & ->).
  bind_inv H as nm Hnm. clear Hnm.
  bind_inv H as em Hem. apply attr_get_Ok in Hem as (contact & Hc & _).
  exists c, contact.
  destruct (rendercv_cv_dict c contact Hc) as (social & _ & E).
  exists social. repeat split; [exact Hc|].
  clear H. rewrite H0 in E. now injection E.
Qed.

Lemma top_keys (cv contact : dict) (social : list value) :
  NoDup (keys (if nonempty social
               then top_fields cv contact
                      ++ [(lit "social_networks", VList social)]
               else top_fields cv contact)).
Proof. destruct (nonempty social); literal_keys. Qed.

Lemma top_get (cv contact : dict) (social : list value) (k : str) :
  k <> lit "social_networks" ->
  dict_get (if nonempty social
            then top_fields cv contact
                   ++ [(lit "social_networks", VList social)]
            else top_fields cv contact) k
  = dict_get (top_fields cv contact) k.
Proof.
  intros Hk. destruct (nonempty social); [|reflexivity].
  apply dict_get_app_other. congruence.
Qed.

(** ** The whole projection, taken apart *)

Lemma convert_inv (structured out : dict) :
  convert_structured_to_rendercv_yaml py_repr structured = Ok out ->
  exists cv contact social secs,
    cv_of structured = VDict cv /\
    py_or (get cv (lit "contact_info")) (VDict []) = VDict contact /\
    sections (VDict cv) = Ok secs /\
    let top := if nonempty social
               then top_fields cv contact
                      ++ [(lit "social_networks", VList social)]
               else top_fields cv contact in
    NoDup (keys top) /\
    (forall k, k <> lit "social_networks" ->
               dict_get top k = dict_get (top_fields cv contact) k) /\
    out = [ (lit "cv",
             VDict (if nonempty secs
                    then dict_set (_strip_none_fields top) (lit "sections")
                           (VDict secs)
                    else _strip_none_fields top)) ].
Proof.
  unfold convert_structured_to_rendercv_yaml. intros H.
  bind_inv H as top Htop.
  apply rendercv_cv_inv in Htop as (cv & contact & social & Hcv & Hc & ->).
  bind_inv H as secs Hsecs. injection H as <-.
  exists cv, contact, social, secs. rewrite Hcv in Hsecs.
  repeat split; auto using top_keys.
  intros k Hk. now apply top_get.
Qed.

(** A top-level key of the output other than [sections] and
    [social_networks]. *)
Lemma convert_top_field (structured out cv contact : dict) (k : str) :
  convert_structured_to_rendercv_yaml py_repr structured = Ok out ->
  cv_of structured = VDict cv ->
  py_or (get cv (lit "contact_info")) (VDict []) = VDict contact ->
  k <> lit "sections" -> k <> lit "social_networks" ->
  lookup_path (VDict out) [lit "cv"; k]
  = drop_null (dict_get (top_fields cv contact) k).
Proof.
  intros H Hcv Hc Hk1 Hk2.
  apply convert_inv in H
    as (cv' & contact' & social & secs & Hcv' & Hc' & _ & Hnd & Hget & ->).
  assert (cv' = cv) by congruence. subst cv'.
  assert (contact' = contact) by congruence. subst contact'.
  change (lookup_path (VDict [(lit "cv", ?v)]) [lit "cv"; k])
    with (lookup_path v [k]).
  set (top := if nonempty social then _ else _) in *.
  assert (E : lookup_path
                (VDict (if nonempty secs
                        then dict_set (_strip_none_fields top) (lit "sections")
                               (VDict secs)
                        else _strip_none_fields top)) [k]
              = dict_get (_strip_none_fields top) k).
  { simpl. destruct (nonempty secs).
    - rewrite dict_get_set_other by congruence.
      destruct (dict_get _ k); reflexivity.
    - destruct (dict_get _ k); reflexivity. }
  rewrite E, dict_get_strip_none by assumption.
  now rewrite Hget.
Qed.

(** ** Contact fields and the name *)

Lemma get_field_cv (structured cv : dict) (k : str) :
  cv_of structured = VDict cv ->
  get cv k = field structured [lit "cv"; k].
Proof.
  intros H. unfold get, field. now rewrite (get_cv_field structured cv k H).
Qed.

(** C3. In every projection, each of email, phone, location and website
    is the source's contact field with a null dropped: when the field is
    missing or null in the source the key is not in the output at all,
    it is never there with a null value, and otherwise it carries the
    source's value. *)
Theorem contact_null_omitted (structured out : dict) (f : str) :
  convert_structured_to_rendercv_yaml py_repr structured = Ok out ->
  In f [lit "email"; lit "phone"; lit "location"; lit "website"] ->
  lookup_path (VDict out) [lit "cv"; f]
  = drop_null
      (lookup_path (VDict structured) [lit "cv"; lit "contact_info"; f]) /\
  (missing_or_null
     (lookup_path (VDict structured) [lit "cv"; lit "contact_info"; f]) ->
   lookup_path (VDict out) [lit "cv"; f] = None) /\
  lookup_path (VDict out) [lit "cv"; f] <> Some VNone.
Proof.
  intros H Hf.
  destruct (convert_inv _ _ H)
    as (cv & contact & social & secs & Hcv & Hc & _).
  assert (E : lookup_path (VDict out) [lit "cv"; f]
              = drop_null
                  (lookup_path (VDict structured)
                     [lit "cv"; lit "contact_info"; f])).
  { rewrite (convert_top_field _ _ _ _ f H Hcv Hc).
    - rewrite <- (get_contact_field _ _ _ f Hcv Hc), <- (drop_null_get contact f).
      simpl in Hf.
      destruct Hf as [<-|[<-|[<-|[<-|[]]]]]; reflexivity.
    - simpl in Hf. intros ->.
      destruct Hf as [E|[E|[E|[E|[]]]]]; vm_compute in E; discriminate.
    - simpl in Hf. intros ->.
      destruct Hf as [E|[E|[E|[E|[]]]]]; vm_compute in E; discriminate. }
  rewrite E. repeat split.
  - intros [->| ->]; reflexivity.
  - destruct (lookup_path (VDict structured) _) as [[]|]; simpl; congruence.
Qed.

(** C10. In every projection the cv mapping has the key name, holding
    the source's name, or the empty string when that is missing, null,
    the empty string or otherwise falsy. *)
Theorem name_always_present (structured out : dict) :
  convert_structured_to_rendercv_yaml py_repr structured = Ok out ->
  lookup_path (VDict out) [lit "cv"; lit "name"]
  = Some (py_or (field structured [lit "cv"; lit "name"]) (VStr [])) /\
  (missing_or_null (lookup_path (VDict structured) [lit "cv"; lit "name"]) \/
   lookup_path (VDict structured) [lit "cv"; lit "name"] = Some (VStr []) ->
   lookup_path (VDict out) [lit "cv"; lit "name"] = Some (VStr [])).
Proof.
  intros H.
  destruct (convert_inv _ _ H)
    as (cv & contact & social & secs & Hcv & Hc & _).
  assert (E : lookup_path (VDict out) [lit "cv"; lit "name"]
              = Some (py_or (field structured [lit "cv"; lit "name"])
                        (VStr []))).
  { rewrite (convert_top_field _ _ _ _ (lit "name") H Hcv Hc);
      [|intros E; vm_compute in E; discriminate..].
    change (dict_get (top_fields cv contact) (lit "name"))
      with (Some (py_or (get cv (lit "name")) (VStr []))).
    rewrite drop_null_py_or by discriminate.
    now rewrite (get_field_cv _ _ (lit "name") Hcv). }
  split; [exact E|].
  rewrite E. unfold field.
  intros [[->| ->]| ->]; reflexivity.
Qed.

End ProjectorFacts.

(** ** The sections *)

Lemma entries_of_field (entry : dict -> dict) (v : value) (items : list value) :
  iterate (py_or v (VList [])) = Ok items ->
  collect_entries entry items
  = List.map (fun d => VDict (entry d)) (list_field_dicts v).
Proof.
  intros H. rewrite collect_entries_dicts.
  now rewrite (dicts_of_iterate v items H).
Qed.

Lemma exp_entries_inv (c : dict) (exp : list value) :
  exp_entries (VDict c) = Ok exp ->
  exp = List.map (fun d => VDict (experience_entry d))
          (list_field_dicts (get c (lit "experience"))).
Proof.
  unfold exp_entries. simpl. intros H.
  bind_inv H as items Hitems. injection H as <-.
  now apply entries_of_field.
Qed.

Lemma edu_entries_inv (c : dict) (edu : list value) :
  edu_entries (VDict c) = Ok edu ->
  edu = List.map (fun d => VDict (education_entry d))
          (list_field_dicts (get c (lit "education"))).
Proof.
  unfold edu_entries. simpl. intros H.
  bind_inv H as items Hitems. injection H as <-.
  now apply entries_of_field.
Qed.

Lemma skills_inv (c : dict) (sk : list value) :
  skills (VDict c) = Ok sk ->
  exists items,
    iterate (py_or (get c (lit "skills")) (VList [])) = Ok items /\
    sk = filter keep_skill items.
Proof.
  unfold skills. simpl. intros H.
  bind_inv H as items Hitems. injection H as <-. eauto.
Qed.

Lemma nonempty_map {A B} (f : A -> B) (l : list A) :
  nonempty (List.map f l) = nonempty l.
Proof. now destruct l. Qed.

(** The sections mapping, spelled out. *)
Lemma sections_inv (c secs : dict) :
  sections (VDict c) = Ok secs ->
  exists exp edu items kept,
    exp_entries (VDict c) = Ok exp /\
    edu_entries (VDict c) = Ok edu /\
    iterate (py_or (get c (lit "skills")) (VList [])) = Ok items /\
    skills (VDict c) = Ok (filter keep_skill items) /\
    filter keep_skill items = List.map VStr kept /\
    secs = (if nonempty exp then [(lit "experience", VList exp)] else [])
           ++ (if nonempty edu then [(lit "education", VList edu)] else [])
           ++ (if nonempty kept
               then [(lit "skills", skills_section kept)] else []).
Proof.
  unfold sections. intros H.
  bind_inv H as exp Hexp. bind_inv H as edu Hedu. bind_inv H as sk Hsk.
  destruct (skills_inv c sk Hsk) as (items & Hitems & ->).
  destruct (kept_skills_strings items) as (kept & Ek & Hjoin & _).
  exists exp, edu, items, kept. repeat split; auto.
  rewrite Ek, nonempty_map in H.
  destruct (nonempty kept).
  - unfold py_join in H. rewrite <- Ek, Hjoin in H. simpl in H.
    injection H as <-.
    destruct (nonempty exp), (nonempty edu); reflexivity.
  - injection H as <-.
    destruct (nonempty exp), (nonempty edu); reflexivity.
Qed.

Lemma sections_get (exp edu : list value) (kept : list str) :
  let secs :=
    (if nonempty exp then [(lit "experience", VList exp)] else [])
    ++ (if nonempty edu then [(lit "education", VList edu)] else [])
    ++ (if nonempty kept then [(lit "skills", skills_section kept)] else [])
  in
  dict_get secs (lit "experience")
  = (if nonempty exp then Some (VList exp) else None) /\
  dict_get secs (lit "education")
  = (if nonempty edu then Some (VList edu) else None) /\
  dict_get secs (lit "skills")
  = (if nonempty kept then Some (skills_section kept) else None) /\
  nonempty secs = nonempty exp || nonempty edu || nonempty kept.
Proof.
  destruct (nonempty exp), (nonempty edu), (nonempty kept);
    repeat split; reflexivity.
Qed.

Section SectionsFacts.
Variable py_repr : value -> str.

(** Where the sections mapping sits in the output. *)
Lemma convert_sections (structured out : dict) :
  convert_structured_to_rendercv_yaml py_repr structured = Ok out ->
  exists cv secs,
    cv_of structured = VDict cv /\
    sections (VDict cv) = Ok secs /\
    forall rest,
      lookup_path (VDict out) (lit "cv" :: lit "sections" :: rest)
      = if nonempty secs then lookup_path (VDict secs) rest else None.
Proof.
  intros H.
  destruct (convert_inv _ _ _ H)
    as (cv & contact & social & secs & Hcv & Hc & Hsecs & Hnd & Hget & ->).
  exists cv, secs. repeat split; auto. intros rest.
  change (lookup_path (VDict [(lit "cv", ?v)]) (lit "cv" :: ?p))
    with (lookup_path v p).
  destruct (nonempty secs).
  - cbn [lookup_path]. now rewrite dict_get_set_same.
  - cbn [lookup_path].
    rewrite dict_get_strip_none, Hget by
      (try assumption; intros E; vm_compute in E; discriminate).
    reflexivity.
Qed.

(** Everything the sections of a projection hold, from the source. *)
Lemma convert_sections_spelled (structured out : dict) :
  convert_structured_to_rendercv_yaml py_repr structured = Ok out ->
  exists cv items kept,
    cv_of structured = VDict cv /\
    iterate (py_or (get cv (lit "skills")) (VList [])) = Ok items /\
    filter keep_skill items = List.map VStr kept /\
    let exp := List.map (fun d => VDict (experience_entry d))
                 (list_field_dicts (field structured [lit "cv"; lit "experience"])) in
    let edu := List.map (fun d => VDict (education_entry d))
                 (list_field_dicts (field structured [lit "cv"; lit "education"])) in
    exp_entries (cv_of structured) = Ok exp /\
    edu_entries (cv_of structured) = Ok edu /\
    skills (cv_of structured) = Ok (List.map VStr kept) /\
    lookup_path (VDict out) [lit "cv"; lit "sections"; lit "experience"]
    = (if nonempty exp then Some (VList exp) else None) /\
    lookup_path (VDict out) [lit "cv"; lit "sections"; lit "education"]
    = (if nonempty edu then Some (VList edu) else None) /\
    lookup_path (VDict out) [lit "cv"; lit "sections"; lit "skills"]
    = (if nonempty kept then Some (skills_section kept) else None) /\
    (lookup_path (VDict out) [lit "cv"; lit "sections"] = None <->
     nonempty exp || nonempty edu || nonempty kept = false).
Proof.
  intros H.
  destruct (convert_sections _ _ H) as (cv & secs & Hcv & Hsecs & Hlook).
  destruct (sections_inv _ _ Hsecs)
    as (exp & edu & items & kept & Hexp & Hedu & Hitems & Hsk & Ek & ->).
  pose proof (exp_entries_inv _ _ Hexp) as Eexp.
  pose proof (edu_entries_inv _ _ Hedu) as Eedu.
  rewrite (get_field_cv _ _ (lit "experience") Hcv) in Eexp.
  rewrite (get_field_cv _ _ (lit "education") Hcv) in Eedu.
  subst exp edu.
  destruct (sections_get
              (List.map (fun d => VDict (experience_entry d))
                 (list_field_dicts (field structured [lit "cv"; lit "experience"])))
              (List.map (fun d => VDict (education_entry d))
                 (list_field_dicts (field structured [lit "cv"; lit "education"])))
              kept) as (G1 & G2 & G3 & G4).
  cbv zeta in G1, G2, G3, G4.
  exists cv, items, kept.
  split; [exact Hcv|]. split; [exact Hitems|]. split; [exact Ek|].
  cbv zeta. rewrite Hcv, <- Ek.
  split; [exact Hexp|]. split; [exact Hedu|]. split; [exact Hsk|].
  rewrite !Hlook, G4. cbn [lookup_path]. rewrite G1, G2, G3.
  destruct (nonempty (List.map (fun d => VDict (experience_entry d)) _)),
    (nonempty (List.map (fun d => VDict (education_entry d)) _)),
    (nonempty kept); cbn [orb]; repeat split; congruence.
Qed.

End SectionsFacts.

(* ================================================================== *)
(** * The projector's sections, entries and totality *)
(* ================================================================== *)

Lemma iterate_list_field (l items : list value) :
  iterate (py_or (VList l) (VList [])) = Ok items -> items = l.
Proof.
  destruct l; unfold py_or; simpl; now intros [= <-].
Qed.

Lemma is_iterable_iterate (v : value) :
  is_iterable v = true <-> exists items, iterate v = Ok items.
Proof.
  destruct v; simpl; split; try discriminate; eauto;
    intros (items & H); discriminate.
Qed.

Lemma sections_total (cv : dict) :
  is_iterable (py_or (get cv (lit "experience")) (VList [])) = true ->
  is_iterable (py_or (get cv (lit "education")) (VList [])) = true ->
  is_iterable (py_or (get cv (lit "skills")) (VList [])) = true ->
  exists secs, sections (VDict cv) = Ok secs.
Proof.
  intros H1 H2 H3.
  apply is_iterable_iterate in H1 as (i1 & H1).
  apply is_iterable_iterate in H2 as (i2 & H2).
  apply is_iterable_iterate in H3 as (i3 & H3).
  unfold sections, exp_entries, edu_entries, skills. simpl.
  rewrite H1, H2, H3. simpl.
  destruct (kept_skills_strings i3) as (kept & _ & Hjoin & _).
  unfold py_join. rewrite Hjoin. simpl.
  destruct (nonempty (filter keep_skill i3)); eauto.
Qed.

Lemma sections_shape (cv secs : dict) :
  sections (VDict cv) = Ok secs ->
  is_iterable (py_or (get cv (lit "experience")) (VList [])) = true /\
  is_iterable (py_or (get cv (lit "education")) (VList [])) = true /\
  is_iterable (py_or (get cv (lit "skills")) (VList [])) = true.
Proof.
  unfold sections, exp_entries, edu_entries, skills. simpl. intros H.
  bind_inv H as exp Hexp. bind_inv Hexp as i1 H1.
  bind_inv H as edu Hedu. bind_inv Hedu as i2 H2.
  bind_inv H as sk Hsk. bind_inv Hsk as i3 H3.
  repeat split; apply is_iterable_iterate; eauto.
Qed.

Lemma section_entries (l entries : list value) :
  (if nonempty l then Some (VList l) else None) = Some (VList entries) ->
  entries = l.
Proof. destruct l; simpl; [discriminate|now intros [= <-]]. Qed.

Section ProjectorClaims.
Variable py_repr : value -> str.

(** C4. In every projection a section key is present exactly when the
    list of entries collected for it is not empty, and the sections key
    itself is absent exactly when all three lists are empty; an empty
    experience list and an empty skills list in the source leave no
    experience key and no skills key. *)
Theorem sections_only_when_nonempty (structured out : dict) :
  convert_structured_to_rendercv_yaml py_repr structured = Ok out ->
  exists exp edu sk,
    exp_entries (cv_of structured) = Ok exp /\
    edu_entries (cv_of structured) = Ok edu /\
    skills (cv_of structured) = Ok sk /\
    lookup_path (VDict out) [lit "cv"; lit "sections"; lit "experience"]
    = (if nonempty exp then Some (VList exp) else None) /\
    lookup_path (VDict out) [lit "cv"; lit "sections"; lit "education"]
    = (if nonempty edu then Some (VList edu) else None) /\
    (lookup_path (VDict out) [lit "cv"; lit "sections"; lit "skills"] = None
     <-> sk = []) /\
    (lookup_path (VDict out) [lit "cv"; lit "sections"] = None
     <-> exp = [] /\ edu = [] /\ sk = []) /\
    (field structured [lit "cv"; lit "experience"] = VList [] ->
     lookup_path (VDict out) [lit "cv"; lit "sections"; lit "experience"]
     = None) /\
    (field structured [lit "cv"; lit "skills"] = VList [] ->
     lookup_path (VDict out) [lit "cv"; lit "sections"; lit "skills"]
     = None).
Proof.
  intros H.
  destruct (convert_sections_spelled py_repr _ _ H)
    as (cv & items & kept & Hcv & Hitems & Ek
        & Hexp & Hedu & Hsk & L1 & L2 & L3 & L4).
  eexists _, _, _.
  split; [exact Hexp|]. split; [exact Hedu|]. split; [exact Hsk|].
  split; [exact L1|]. split; [exact L2|].
  split; [|split; [|split]].
  - rewrite L3. destruct kept; simpl; split; congruence.
  - rewrite L4.
    destruct (List.map (fun d => VDict (experience_entry d)) _),
      (List.map (fun d => VDict (education_entry d)) _), kept; simpl;
      intuition congruence.
  - intros E. rewrite L1, E. reflexivity.
  - intros E. rewrite L3.
    rewrite <- (get_field_cv _ _ (lit "skills") Hcv) in E.
    rewrite E in Hitems. apply iterate_list_field in Hitems. subst items.
    destruct kept; [reflexivity|discriminate].
Qed.

(** C1, as the code has it. For a skills list, the entries that are not
    strings, are empty or are only whitespace are filtered out; when
    some remain the skills section is exactly one entry whose single
    field details is the remaining strings, as they are in the source
    (their surrounding whitespace kept), joined by ", "; when none
    remain there is no skills section. *)
Theorem skills_joined_as_they_are (structured out : dict) (l : list value) :
  convert_structured_to_rendercv_yaml py_repr structured = Ok out ->
  field structured [lit "cv"; lit "skills"] = VList l ->
  exists kept,
    filter keep_skill l = List.map VStr kept /\
    (forall v, keep_skill v = true <-> exists s, v = VStr s /\ strip s <> []) /\
    lookup_path (VDict out) [lit "cv"; lit "sections"; lit "skills"]
    = (if nonempty kept
       then Some (VList [ VDict [ (lit "details",
                                   VStr (join (lit ", ") kept)) ] ])
       else None).
Proof.
  intros H Hl.
  destruct (convert_sections_spelled py_repr _ _ H)
    as (cv & items & kept & Hcv & Hitems & Ek & _ & _ & _ & _ & _ & L3 & _).
  rewrite <- (get_field_cv _ _ (lit "skills") Hcv) in Hl.
  rewrite Hl in Hitems. apply iterate_list_field in Hitems. subst items.
  exists kept. split; [exact Ek|]. split; [exact keep_skill_iff|exact L3].
Qed.

(** C5. The experience and education entries of a projection are the
    entries made of the mappings of the source lists. In such an entry a
    scalar field of the item is there unless it is missing or null, with
    the item's value, empty containers included; and highlights is
    always there, the item's list, or the empty list when that is
    missing, null or empty. *)
Theorem entries_drop_null_keep_lists (structured out : dict) :
  convert_structured_to_rendercv_yaml py_repr structured = Ok out ->
  (forall entries,
      lookup_path (VDict out) [lit "cv"; lit "sections"; lit "experience"]
      = Some (VList entries) ->
      entries
      = List.map (fun item => VDict (experience_entry item))
          (list_field_dicts (field structured [lit "cv"; lit "experience"]))) /\
  (forall entries,
      lookup_path (VDict out) [lit "cv"; lit "sections"; lit "education"]
      = Some (VList entries) ->
      entries
      = List.map (fun item => VDict (education_entry item))
          (list_field_dicts (field structured [lit "cv"; lit "education"]))) /\
  (forall item f,
      In f [lit "position"; lit "location"; lit "start_date"; lit "end_date"] ->
      dict_get (experience_entry item) f = drop_null (dict_get item f)) /\
  (forall item f,
      In f [lit "degree"; lit "field"; lit "location"; lit "start_date";
            lit "end_date"] ->
      dict_get (education_entry item) f = drop_null (dict_get item f)) /\
  (forall item,
      dict_get (experience_entry item) (lit "highlights")
      = Some (py_or (get item (lit "highlights")) (VList [])) /\
      (missing_or_null (dict_get item (lit "highlights")) ->
       dict_get (experience_entry item) (lit "highlights") = Some (VList []))) /\
  (forall item,
      dict_get (education_entry item) (lit "highlights")
      = Some (py_or (get item (lit "notes")) (VList [])) /\
      (missing_or_null (dict_get item (lit "notes")) ->
       dict_get (education_entry item) (lit "highlights") = Some (VList []))).
Proof.
  intros H.
  destruct (convert_sections_spelled py_repr _ _ H)
    as (cv & items & kept & _ & _ & _ & _ & _ & _ & L1 & L2 & _).
  split; [|split; [|split; [|split; [|split]]]].
  - intros entries E. rewrite L1 in E. now apply section_entries.
  - intros entries E. rewrite L2 in E. now apply section_entries.
  - intros item f Hf. rewrite experience_entry_get, <- (drop_null_get item f).
    simpl in Hf. destruct Hf as [<-|[<-|[<-|[<-|[]]]]]; reflexivity.
  - intros item f Hf. rewrite education_entry_get, <- (drop_null_get item f).
    simpl in Hf. destruct Hf as [<-|[<-|[<-|[<-|[<-|[]]]]]]; reflexivity.
  - intros item.
    assert (E : dict_get (experience_entry item) (lit "highlights")
                = Some (py_or (get item (lit "highlights")) (VList []))).
    { rewrite experience_entry_get.
      change (dict_get _ (lit "highlights"))
        with (Some (py_or (get item (lit "highlights")) (VList []))).
      now apply drop_null_py_or. }
    split; [exact E|]. rewrite E. unfold get.
    intros [-> | ->]; reflexivity.
  - intros item.
    assert (E : dict_get (education_entry item) (lit "highlights")
                = Some (py_or (get item (lit "notes")) (VList []))).
    { rewrite education_entry_get.
      change (dict_get _ (lit "highlights"))
        with (Some (py_or (get item (lit "notes")) (VList []))).
      now apply drop_null_py_or. }
    split; [exact E|]. rewrite E. unfold get.
    intros [-> | ->]; reflexivity.
Qed.

(** C9. The education section of a projection holds one entry for each
    mapping of the source's education list, in order; the entry carries
    the item's notes under the key highlights, the empty list when notes
    is missing or null, and has no notes key. *)
Theorem education_notes_as_highlights (structured out : dict) :
  convert_structured_to_rendercv_yaml py_repr structured = Ok out ->
  lookup_path (VDict out) [lit "cv"; lit "sections"; lit "education"]
  = (if nonempty (list_field_dicts (field structured [lit "cv"; lit "education"]))
     then Some (VList (List.map (fun item => VDict (education_entry item))
                         (list_field_dicts
                            (field structured [lit "cv"; lit "education"]))))
     else None) /\
  (forall item,
      dict_get (education_entry item) (lit "highlights")
      = Some (py_or (get item (lit "notes")) (VList [])) /\
      (missing_or_null (dict_get item (lit "notes")) ->
       dict_get (education_entry item) (lit "highlights") = Some (VList [])) /\
      dict_get (education_entry item) (lit "notes") = None).
Proof.
  intros H.
  destruct (convert_sections_spelled py_repr _ _ H)
    as (cv & items & kept & _ & _ & _ & _ & _ & _ & _ & L2 & _).
  split.
  - rewrite L2. now rewrite nonempty_map.
  - intros item.
    assert (E : dict_get (education_entry item) (lit "highlights")
                = Some (py_or (get item (lit "notes")) (VList []))).
    { rewrite education_entry_get.
      change (dict_get _ (lit "highlights"))
        with (Some (py_or (get item (lit "notes")) (VList []))).
      now apply drop_null_py_or. }
    split; [exact E|]. split.
    + rewrite E. unfold get. intros [-> | ->]; reflexivity.
    + rewrite education_entry_get. reflexivity.
Qed.

(** C7, as the code has it. The projector returns a projection exactly for the
    records in which cv and contact_info are mappings or falsy and
    experience, education and skills are iterable or falsy, however many
    fields are missing; for these the entries of experience and
    education are made of the mappings of the source lists, the other
    items being dropped. *)
Theorem projector_total_on_shaped (structured : dict) :
  (well_shaped structured <->
   exists out, convert_structured_to_rendercv_yaml py_repr structured = Ok out) /\
  (well_shaped structured ->
   exp_entries (cv_of structured)
   = Ok (List.map (fun item => VDict (experience_entry item))
           (list_field_dicts (field structured [lit "cv"; lit "experience"]))) /\
   edu_entries (cv_of structured)
   = Ok (List.map (fun item => VDict (education_entry item))
           (list_field_dicts (field structured [lit "cv"; lit "education"])))).
Proof.
  assert (Htotal : well_shaped structured ->
                   exists out,
                     convert_structured_to_rendercv_yaml py_repr structured
                     = Ok out).
  { intros (cv & contact & Hcv & Hc & H1 & H2 & H3).
    unfold convert_structured_to_rendercv_yaml. rewrite Hcv.
    destruct (rendercv_cv_dict py_repr cv contact Hc) as (social & _ & ->).
    destruct (sections_total cv H1 H2 H3) as (secs & ->).
    simpl. eauto. }
  split; [split; [exact Htotal|]|].
  - intros (out & H).
    destruct (convert_inv _ _ _ H)
      as (cv & contact & social & secs & Hcv & Hc & Hsecs & _).
    exists cv, contact. split; [exact Hcv|]. split; [exact Hc|].
    now apply sections_shape with (secs := secs).
  - intros Hs. destruct (Htotal Hs) as (out & H).
    destruct (convert_sections_spelled py_repr _ _ H)
      as (cv & items & kept & _ & _ & _ & Hexp & Hedu & _).
    split; assumption.
Qed.

End ProjectorClaims.

Lemma sections_only_when_nonempty_witness :
  convert_structured_to_rendercv_yaml py_repr_unused example_sparse
    = Ok example_sparse_out /\
  exists exp edu sk,
    exp_entries (cv_of example_sparse) = Ok exp /\
    edu_entries (cv_of example_sparse) = Ok edu /\
    skills (cv_of example_sparse) = Ok sk /\
    lookup_path (VDict example_sparse_out)
      [lit "cv"; lit "sections"; lit "experience"]
    = (if nonempty exp then Some (VList exp) else None) /\
    lookup_path (VDict example_sparse_out)
      [lit "cv"; lit "sections"; lit "education"]
    = (if nonempty edu then Some (VList edu) else None).
Proof.
  assert (H : convert_structured_to_rendercv_yaml py_repr_unused example_sparse
              = Ok example_sparse_out) by reflexivity.
  split; [exact H|].
  destruct (sections_only_when_nonempty py_repr_unused
              example_sparse example_sparse_out H)
    as (exp & edu & sk & H1 & H2 & H3 & H4 & H5 & _).
  exists exp, edu, sk. auto.
Defined.

Lemma skills_joined_as_they_are_witness :
  convert_structured_to_rendercv_yaml py_repr_unused example_skills
    = Ok example_skills_out /\
  field example_skills [lit "cv"; lit "skills"]
    = VList [VStr (lit "Go"); VStr (lit ""); VStr (lit "  Rust  ")] /\
  exists kept,
    filter keep_skill [VStr (lit "Go"); VStr (lit ""); VStr (lit "  Rust  ")]
    = List.map VStr kept /\
    (forall v, keep_skill v = true <-> exists s, v = VStr s /\ strip s <> []) /\
    lookup_path (VDict example_skills_out)
      [lit "cv"; lit "sections"; lit "skills"]
    = (if nonempty kept
       then Some (VList [ VDict [ (lit "details",
                                   VStr (join (lit ", ") kept)) ] ])
       else None).
Proof.
  assert (H : convert_structured_to_rendercv_yaml py_repr_unused example_skills
              = Ok example_skills_out) by reflexivity.
  assert (F : field example_skills [lit "cv"; lit "skills"]
              = VList [VStr (lit "Go"); VStr (lit ""); VStr (lit "  Rust  ")])
    by reflexivity.
  split; [exact H|]. split; [exact F|].
  exact (skills_joined_as_they_are py_repr_unused
           example_skills example_skills_out _ H F).
Defined.

(** The skills example of the specification: the projection keeps the
    blanks around Rust, so the value is not "Go, Rust". *)
Lemma skills_whitespace_kept :
  convert_structured_to_rendercv_yaml py_repr_unused example_skills
    = Ok example_skills_out /\
  lookup_path (VDict example_skills_out)
    [lit "cv"; lit "sections"; lit "skills"]
  = Some (VList [ VDict [ (lit "details", VStr (lit "Go,   Rust  ")) ] ]) /\
  lookup_path (VDict example_skills_out)
    [lit "cv"; lit "sections"; lit "skills"]
  <> Some (VList [ VDict [ (lit "details", VStr (lit "Go, Rust")) ] ]).
Proof.
  split; [reflexivity|]. split; [reflexivity|].
  vm_compute. discriminate.
Qed.

Lemma contact_null_omitted_witness :
  convert_structured_to_rendercv_yaml py_repr_unused example_ordered
    = Ok example_ordered_out /\
  In (lit "phone") [lit "email"; lit "phone"; lit "location"; lit "website"] /\
  missing_or_null
    (lookup_path (VDict example_ordered)
       [lit "cv"; lit "contact_info"; lit "phone"]) /\
  lookup_path (VDict example_ordered_out) [lit "cv"; lit "phone"] = None.
Proof.
  assert (H : convert_structured_to_rendercv_yaml py_repr_unused example_ordered
              = Ok example_ordered_out) by reflexivity.
  assert (Hf : In (lit "phone")
                 [lit "email"; lit "phone"; lit "location"; lit "website"])
    by (right; left; reflexivity).
  assert (Hm : missing_or_null
                 (lookup_path (VDict example_ordered)
                    [lit "cv"; lit "contact_info"; lit "phone"]))
    by (left; reflexivity).
  split; [exact H|]. split; [exact Hf|]. split; [exact Hm|].
  exact (proj1 (proj2 (contact_null_omitted py_repr_unused
                         example_ordered example_ordered_out (lit "phone")
                         H Hf)) Hm).
Defined.

Lemma name_always_present_witness :
  convert_structured_to_rendercv_yaml py_repr_unused example_skills
    = Ok example_skills_out /\
  lookup_path (VDict example_skills) [lit "cv"; lit "name"] = None /\
  lookup_path (VDict example_skills_out) [lit "cv"; lit "name"]
  = Some (VStr []).
Proof.
  assert (H : convert_structured_to_rendercv_yaml py_repr_unused example_skills
              = Ok example_skills_out) by reflexivity.
  assert (Hm : lookup_path (VDict example_skills) [lit "cv"; lit "name"] = None)
    by reflexivity.
  split; [exact H|]. split; [exact Hm|].
  exact (proj2 (name_always_present py_repr_unused
                  example_skills example_skills_out H)
           (or_introl (or_introl Hm))).
Defined.

Lemma entries_drop_null_keep_lists_witness :
  convert_structured_to_rendercv_yaml py_repr_unused example_sparse
    = Ok example_sparse_out /\
  forall entries,
    lookup_path (VDict example_sparse_out)
      [lit "cv"; lit "sections"; lit "experience"]
    = Some (VList entries) ->
    entries
    = List.map (fun item => VDict (experience_entry item))
        (list_field_dicts (field example_sparse [lit "cv"; lit "experience"])).
Proof.
  assert (H : convert_structured_to_rendercv_yaml py_repr_unused example_sparse
              = Ok example_sparse_out) by reflexivity.
  split; [exact H|].
  exact (proj1 (entries_drop_null_keep_lists py_repr_unused
                  example_sparse example_sparse_out H)).
Defined.

Lemma education_notes_as_highlights_witness :
  convert_structured_to_rendercv_yaml py_repr_unused example_education
    = Ok example_education_out /\
  lookup_path (VDict example_education_out)
    [lit "cv"; lit "sections"; lit "education"]
  = (if nonempty
          (list_field_dicts (field example_education [lit "cv"; lit "education"]))
     then Some (VList (List.map (fun item => VDict (education_entry item))
                         (list_field_dicts
                            (field example_education
                               [lit "cv"; lit "education"]))))
     else None).
Proof.
  assert (H : convert_structured_to_rendercv_yaml py_repr_unused
                example_education
              = Ok example_education_out) by reflexivity.
  split; [exact H|].
  exact (proj1 (education_notes_as_highlights py_repr_unused
                  example_education example_education_out H)).
Defined.

Lemma projector_total_on_shaped_witness :
  well_shaped example_sparse /\
  exists out,
    convert_structured_to_rendercv_yaml py_repr_unused example_sparse = Ok out.
Proof.
  assert (H : well_shaped example_sparse).
  { eexists _, _. repeat split; reflexivity. }
  split; [exact H|].
  exact (proj1 (proj1 (projector_total_on_shaped py_repr_unused example_sparse))
           H).
Defined.

(** A record with the key cv, as the validator asks, whose contact_info
    is a string: the projector raises. *)
Lemma projector_raises_on_string_contact :
  has_key example_contact_string (lit "cv") = true /\
  convert_structured_to_rendercv_yaml py_repr_unused example_contact_string
  = Raise AttributeError /\
  ~ exists out,
      convert_structured_to_rendercv_yaml py_repr_unused example_contact_string
      = Ok out.
Proof.
  split; [reflexivity|]. split; [reflexivity|].
  intros (out & H). vm_compute in H. discriminate.
Qed.

(** The example outputs, read back. *)
Example example_sparse_projection :
  example_sparse_out
  = [ (lit "cv",
       VDict [ (lit "name", VStr (lit "Jane"));
               (lit "sections",
                VDict [ (lit "experience",
                         VList [ VDict [ (lit "company", VStr (lit "Acme"));
                                         (lit "start_date", VStr (lit "2020-03"));
                                         (lit "highlights", VList []) ] ]) ]) ]) ].
Proof. reflexivity. Qed.

Example example_education_projection :
  example_education_out
  = [ (lit "cv",
       VDict [ (lit "name", VStr (lit ""));
               (lit "sections",
                VDict [ (lit "education",
                         VList [ VDict [ (lit "institution", VStr (lit "MIT"));
                                         (lit "highlights",
                                          VList [VStr (lit "Honours")]) ] ]) ]) ]) ].
Proof. reflexivity. Qed.

(* ================================================================== *)
(** * The projection does not depend on insertion order *)
(* ================================================================== *)









(** ** Runs that end alike *)





(** ** Dicts built field by field *)












(** ** The parts of the projector *)






Section OrderIndependence.
Variable py_repr : value -> str.







End OrderIndependence.






(* ================================================================== *)
(** * More on the salvage parser *)
(* ================================================================== *)

Lemma lstrip_blank (ws s : str) : blank ws -> lstrip (ws ++ s) = lstrip s.
Proof.
  induction 1 as [|c ws Hc Hws IH]; simpl; [reflexivity|].
  now rewrite Hc.
Qed.

Lemma lstrip_blank_nil (ws : str) : blank ws -> lstrip ws = [].
Proof.
  intros H. rewrite <- (app_nil_r ws). now rewrite lstrip_blank.
Qed.

Lemma lstrip_app (s w : str) :
  lstrip (s ++ w) = match lstrip s with [] => lstrip w | u => u ++ w end.
Proof.
  induction s as [|c s IH]; simpl; [now destruct (lstrip w)|].
  destruct (isspace c); [exact IH|reflexivity].
Qed.

Lemma blank_rev (ws : str) : blank ws -> blank (rev ws).
Proof. unfold blank. apply Forall_rev. Qed.

Lemma rstrip_blank (s ws : str) : blank ws -> rstrip (s ++ ws) = rstrip s.
Proof.
  intros H. unfold rstrip. rewrite rev_app_distr.
  now rewrite lstrip_blank by now apply blank_rev.
Qed.

Lemma rstrip_nil : rstrip [] = [].
Proof. reflexivity. Qed.

(** Whitespace around a text does not change what [strip] leaves. *)
Lemma strip_padding (ws1 text ws2 : str) :
  blank ws1 -> blank ws2 -> strip (ws1 ++ text ++ ws2) = strip text.
Proof.
  intros H1 H2. unfold strip. rewrite lstrip_blank by assumption.
  rewrite lstrip_app. destruct (lstrip text) as [|c u] eqn:E.
  - now rewrite lstrip_blank_nil.
  - now rewrite rstrip_blank.
Qed.

Lemma first_index_absent (c : N) (s : str) :
  SalvageSpec.first_index c s = None <-> ~ In c s.
Proof.
  induction s as [|x s IH]; simpl; [tauto|].
  destruct (N.eqb_spec x c) as [->|Hne].
  - split; [discriminate|]. intros H. exfalso. apply H. now left.
  - destruct (SalvageSpec.first_index c s); simpl.
    + split; [discriminate|]. intros H. exfalso.
      assert (Hs : ~ In c s) by (intros ?; apply H; now right).
      apply IH in Hs. discriminate.
    + split; [|reflexivity]. intros _ [E|HIn]; [congruence|].
      now apply (proj1 IH).
Qed.

Lemma last_index_absent (c : N) (s : str) :
  SalvageSpec.last_index c s = None <-> ~ In c s.
Proof.
  induction s as [|x s IH]; simpl; [tauto|].
  destruct (SalvageSpec.last_index c s).
  - split; [discriminate|]. intros H. exfalso.
    assert (Hs : ~ In c s) by (intros ?; apply H; now right).
    apply IH in Hs. discriminate.
  - destruct (N.eqb_spec x c) as [->|Hne].
    + split; [discriminate|]. intros H. exfalso. apply H. now left.
    + split; [|reflexivity]. intros _ [E|HIn]; [congruence|].
      now apply (proj1 IH).
Qed.

(** The first index is an occurrence, and no occurrence comes before. *)
Lemma first_index_least (c : N) (s : str) (i : nat) :
  SalvageSpec.first_index c s = Some i ->
  nth_error s i = Some c /\
  forall k, nth_error s k = Some c -> i <= k.
Proof.
  revert i. induction s as [|x s IH]; intros i; simpl; [discriminate|].
  destruct (N.eqb_spec x c) as [->|Hne].
  - intros [= <-]. split; [reflexivity|]. intros k _. lia.
  - destruct (SalvageSpec.first_index c s) as [n|]; simpl; [|discriminate].
    intros [= <-]. destruct (IH n eq_refl) as [Hn Hmin].
    split; [exact Hn|]. intros [|k] Hk; simpl in Hk; [congruence|].
    specialize (Hmin k Hk). lia.
Qed.

(** The last index is an occurrence, and no occurrence comes after. *)
Lemma last_index_greatest (c : N) (s : str) (j : nat) :
  SalvageSpec.last_index c s = Some j ->
  nth_error s j = Some c /\
  forall k, nth_error s k = Some c -> k <= j.
Proof.
  revert j. induction s as [|x s IH]; intros j; simpl; [discriminate|].
  destruct (SalvageSpec.last_index c s) as [n|] eqn:E.
  - intros [= <-]. destruct (IH n eq_refl) as [Hn Hmax].
    split; [exact Hn|]. intros [|k] Hk; simpl in Hk; [lia|].
    specialize (Hmax k Hk). lia.
  - destruct (N.eqb_spec x c) as [->|Hne]; [|discriminate].
    intros [= <-]. split; [reflexivity|].
    intros [|k] Hk; simpl in Hk; [lia|].
    apply last_index_absent in E. exfalso. apply E.
    eapply nth_error_In, Hk.
Qed.

Lemma first_index_app (c : N) (pre rest : str) :
  ~ In c pre ->
  SalvageSpec.first_index c (pre ++ c :: rest) = Some (List.length pre).
Proof.
  induction pre as [|x pre IH]; simpl; intros H.
  - now rewrite N.eqb_refl.
  - destruct (N.eqb_spec x c) as [->|Hne]; [tauto|].
    rewrite IH by tauto. reflexivity.
Qed.

Lemma last_index_app (c : N) (front post : str) :
  ~ In c post ->
  SalvageSpec.last_index c (front ++ c :: post) = Some (List.length front).
Proof.
  intros H. induction front as [|x front IH]; simpl.
  - apply last_index_absent in H. rewrite H. now rewrite N.eqb_refl.
  - now rewrite IH.
Qed.

Lemma between_body (pre mid post : str) (a b : N) :
  SalvageSpec.between (List.length pre) (List.length pre + S (List.length mid))
    ((pre ++ a :: mid) ++ b :: post)
  = a :: mid ++ [b].
Proof.
  unfold SalvageSpec.between. rewrite <- app_assoc.
  rewrite skipn_app, skipn_all, Nat.sub_diag. simpl.
  replace (List.length pre + S (List.length mid) - List.length pre + 1)
    with (S (S (List.length mid))) by lia.
  simpl. f_equal.
  induction mid as [|x mid IH]; simpl; [reflexivity|]. now rewrite IH.
Qed.

Section SalvageMore.
Variable json_loads : str -> loads_result.

(** X1. Whitespace before and after the model's reply is of no
    consequence: the padded text gives the very result of the text. *)
Theorem extract_ignores_padding (ws1 text ws2 : str) :
  blank ws1 -> blank ws2 ->
  _extract_json_object json_loads (ws1 ++ text ++ ws2)
  = _extract_json_object json_loads text.
Proof.
  intros H1 H2. unfold _extract_json_object.
  now rewrite strip_padding.
Qed.

(** X2. When the reply as a whole is no JSON and the stripped reply is
    prose without an opening brace, then a braced body, then prose
    without a closing brace, the body alone, braces included, is what
    gets parsed: its value is returned, or the exception of its parse
    raised, a decode error or any other. *)
Theorem extract_recovers_body (text pre mid post : str) :
  json_loads (strip text) = DecodeError ->
  strip text = pre ++ lbrace :: mid ++ rbrace :: post ->
  ~ In lbrace pre -> ~ In rbrace post ->
  _extract_json_object json_loads text
  = match json_loads (lbrace :: mid ++ [rbrace]) with
    | Loaded v => Ok v
    | DecodeError => Raise JSONDecodeError
    | OtherError cls => Raise (LibraryError cls)
    end.
Proof.
  intros Hp Ht Hpre Hpost. unfold _extract_json_object. rewrite Hp, Ht.
  unfold find, rfind.
  rewrite SalvageProofs.find_from_first_index,
    SalvageProofs.rfind_from_last_index.
  rewrite first_index_app by assumption.
  replace (pre ++ lbrace :: mid ++ rbrace :: post)
    with ((pre ++ lbrace :: mid) ++ rbrace :: post)
    by (now rewrite <- app_assoc).
  rewrite last_index_app by assumption.
  rewrite length_app. simpl List.length.
  set (i := List.length pre). set (m := List.length mid).
  destruct (Z.eqb_spec (0 + Z.of_nat i) (-1)); [lia|].
  destruct (Z.eqb_spec (0 + Z.of_nat (i + S m)) (-1)); [lia|].
  destruct (Z.leb_spec (0 + Z.of_nat (i + S m)) (0 + Z.of_nat i)); [lia|].
  simpl orb. cbv iota.
  replace (0 + Z.of_nat i)%Z with (Z.of_nat i) by lia.
  replace (0 + Z.of_nat (i + S m) + 1)%Z with (Z.of_nat (i + S m) + 1)%Z
    by lia.
  rewrite SalvageProofs.slice_between
    by (rewrite ?length_app; simpl; lia).
  subst i m. rewrite between_body. reflexivity.
Qed.

(** X3. Once the direct parse has failed with a decode error, NoJsonFound
    (the [ValueError] of line 156) is raised exactly when the stripped
    text has no opening brace in front of a closing brace. *)
Theorem extract_no_json_found_iff (text : str) :
  json_loads (strip text) = DecodeError ->
  (_extract_json_object json_loads text = Raise ValueError <->
   ~ exists i j,
       i < j /\
       nth_error (strip text) i = Some lbrace /\
       nth_error (strip text) j = Some rbrace).
Proof.
  intros Hp. unfold _extract_json_object. rewrite Hp.
  set (t := strip text). unfold find, rfind.
  rewrite SalvageProofs.find_from_first_index,
    SalvageProofs.rfind_from_last_index.
  destruct (SalvageSpec.first_index lbrace t) as [i|] eqn:Ei.
  - destruct (SalvageSpec.last_index rbrace t) as [j|] eqn:Ej.
    + destruct (first_index_least _ _ _ Ei) as [Hi Hmin].
      destruct (last_index_greatest _ _ _ Ej) as [Hj Hmax].
      destruct (Z.eqb_spec (0 + Z.of_nat i) (-1)); [lia|].
      destruct (Z.eqb_spec (0 + Z.of_nat j) (-1)); [lia|].
      destruct (Z.leb_spec (0 + Z.of_nat j) (0 + Z.of_nat i)); simpl.
      * split; [intros _|reflexivity].
        intros (i' & j' & Hlt & Hi' & Hj').
        specialize (Hmin _ Hi'). specialize (Hmax _ Hj'). lia.
      * split.
        -- intros E. destruct (json_loads (slice _ _ _)); discriminate E.
        -- intros Hno. exfalso. apply Hno. exists i, j. repeat split; auto. lia.
    + destruct (Z.eqb_spec (0 + Z.of_nat i) (-1)); simpl;
        (split; [intros _|reflexivity]);
        intros (i' & j' & _ & _ & Hj');
        apply last_index_absent in Ej; apply Ej;
        eapply nth_error_In, Hj'.
  - simpl. split; [intros _|reflexivity].
    intros (i' & j' & _ & Hi' & _).
    apply first_index_absent in Ei. apply Ei.
    eapply nth_error_In, Hi'.
Qed.

End SalvageMore.

Ltac not_in_literal :=
  let H := fresh in
  intros H; vm_compute in H;
  repeat (destruct H as [H|H]; [discriminate H|]); exact H.

Lemma extract_ignores_padding_witness :
  blank (lit "  ") /\ blank (lit " ") /\
  _extract_json_object example_loads (lit "  " ++ lit "{'cv': {}}" ++ lit " ")
  = _extract_json_object example_loads (lit "{'cv': {}}").
Proof.
  assert (H1 : blank (lit "  ")) by (repeat constructor).
  assert (H2 : blank (lit " ")) by (repeat constructor).
  split; [exact H1|]. split; [exact H2|].
  exact (extract_ignores_padding example_loads _ _ _ H1 H2).
Defined.

Lemma extract_recovers_body_witness :
  example_loads (strip (lit "Sure! Here it is: {'cv': {}} Let me know."))
  = DecodeError /\
  _extract_json_object example_loads
    (lit "Sure! Here it is: {'cv': {}} Let me know.")
  = match example_loads (lbrace :: lit "'cv': {}" ++ [rbrace]) with
    | Loaded v => Ok v
    | DecodeError => Raise JSONDecodeError
    | OtherError cls => Raise (LibraryError cls)
    end.
Proof.
  assert (Hp : example_loads
                 (strip (lit "Sure! Here it is: {'cv': {}} Let me know."))
               = DecodeError) by reflexivity.
  assert (Ht : strip (lit "Sure! Here it is: {'cv': {}} Let me know.")
               = lit "Sure! Here it is: "
                 ++ lbrace :: lit "'cv': {}" ++ rbrace :: lit " Let me know.")
    by reflexivity.
  assert (H1 : ~ In lbrace (lit "Sure! Here it is: ")) by not_in_literal.
  assert (H2 : ~ In rbrace (lit " Let me know.")) by not_in_literal.
  split; [exact Hp|].
  exact (extract_recovers_body example_loads _ _ _ _ Hp Ht H1 H2).
Defined.

Lemma extract_no_json_found_iff_witness :
  example_loads (strip (lit "I cannot help with that.")) = DecodeError /\
  (_extract_json_object example_loads (lit "I cannot help with that.")
   = Raise ValueError <->
   ~ exists i j,
       i < j /\
       nth_error (strip (lit "I cannot help with that.")) i = Some lbrace /\
       nth_error (strip (lit "I cannot help with that.")) j = Some rbrace).
Proof.
  assert (Hp : example_loads (strip (lit "I cannot help with that."))
               = DecodeError)
    by reflexivity.
  split; [exact Hp|].
  exact (extract_no_json_found_iff example_loads _ Hp).
Defined.

(* ================================================================== *)
(** * More on the artifact selector *)
(* ================================================================== *)

Lemma first_greatest_In {A} (key : A -> Z * Z) (p : A) (l : list A) :
  first_greatest key p l -> In p l.
Proof.
  intros (before & after & -> & _). apply in_or_app. right. now left.
Qed.

Lemma score_bias (st_size : Path -> option N) (p : Path) :
  fst (score st_size p) = if re_search_cv_resume (name p) then 1%Z else 0%Z.
Proof. reflexivity. Qed.

(** X4. As soon as one listed file is named like a resume or CV, the
    file selected is a listed file named like one, whatever the sizes
    and whether or not [stat] works. *)
Theorem find_best_markdown_prefers_named
  (rglob_md : Path -> list Path) (st_size : Path -> option N)
  (dir q : Path) :
  In q (rglob_md dir) ->
  re_search_cv_resume (name q) = true ->
  exists p,
    _find_best_markdown rglob_md st_size dir = Ok p /\
    In p (rglob_md dir) /\
    re_search_cv_resume (name p) = true.
Proof.
  intros Hq Hname.
  assert (Hne : rglob_md dir <> []) by (intros E; rewrite E in Hq; exact Hq).
  destruct (find_best_markdown_head rglob_md st_size dir Hne) as (p & Hp & Hg).
  exists p. split; [exact Hp|]. split; [now apply first_greatest_In in Hg|].
  pose proof (first_greatest_le _ _ _ _ q Hg Hq) as Hle.
  apply key_leb_spec in Hle. rewrite !score_bias, Hname in Hle.
  destruct (re_search_cv_resume (name p)); [reflexivity|].
  simpl in Hle. lia.
Qed.


Lemma ci_match_upper (p c : N) :
  small_letter p -> ci_match p (ascii_upper c) = ci_match p c.
Proof.
  unfold small_letter, ci_match, ascii_upper. intros Hp.
  destruct (N.leb_spec 97 c); destruct (N.leb_spec c 122); simpl;
    try reflexivity.
  repeat match goal with
         | |- context [N.eqb ?a ?b] => destruct (N.eqb_spec a b)
         end; simpl; try reflexivity; lia.
Qed.

Lemma match_here_upper (pat s : str) :
  Forall small_letter pat ->
  match_here pat (List.map ascii_upper s) = match_here pat s.
Proof.
  intros Hpat. revert s.
  induction Hpat as [|p pat Hp Hpat IH]; intros s; [now destruct s|].
  destruct s as [|c s]; [reflexivity|]. simpl.
  now rewrite ci_match_upper, IH.
Qed.

Lemma search_word_upper (pat s : str) :
  Forall small_letter pat ->
  search_word pat (List.map ascii_upper s) = search_word pat s.
Proof.
  intros Hpat. induction s as [|c s IH]; [reflexivity|].
  change (List.map ascii_upper (c :: s))
    with (ascii_upper c :: List.map ascii_upper s).
  cbn [search_word]. rewrite IH.
  change (ascii_upper c :: List.map ascii_upper s)
    with (List.map ascii_upper (c :: s)).
  now rewrite match_here_upper.
Qed.

Lemma ci_match_refl (p : N) : ci_match p p = true.
Proof. unfold ci_match. now rewrite N.eqb_refl. Qed.

Lemma match_here_prefix (pat b : str) : match_here pat (pat ++ b) = true.
Proof.
  induction pat as [|p pat IH]; simpl; [now destruct b|].
  now rewrite ci_match_refl, IH.
Qed.

Lemma search_word_inside (pat a b : str) :
  search_word pat (a ++ pat ++ b) = true.
Proof.
  induction a as [|c a IH].
  - pose proof (match_here_prefix pat b) as H. simpl app.
    destruct (pat ++ b); simpl; now rewrite H.
  - simpl. rewrite IH. apply orb_true_r.
Qed.

Lemma small_letters_cv : Forall small_letter (lit "cv").
Proof. repeat constructor; vm_compute; discriminate. Qed.

Lemma small_letters_resume : Forall small_letter (lit "resume").
Proof. repeat constructor; vm_compute; discriminate. Qed.

(** X6. The name test ignores the case of ASCII letters, and it finds
    cv or resume anywhere in the name, inside a longer word or next to
    the extension as well. *)
Theorem name_test_case_and_place :
  (forall s,
      re_search_cv_resume (List.map ascii_upper s) = re_search_cv_resume s) /\
  (forall a b,
      re_search_cv_resume (a ++ lit "cv" ++ b) = true /\
      re_search_cv_resume (a ++ lit "resume" ++ b) = true).
Proof.
  split.
  - intros s. unfold re_search_cv_resume.
    now rewrite (search_word_upper _ s small_letters_cv),
      (search_word_upper _ s small_letters_resume).
  - intros a b. unfold re_search_cv_resume.
    rewrite !search_word_inside. split; [reflexivity|apply orb_true_r].
Qed.

Lemma find_best_markdown_prefers_named_witness :
  In resume_md (example_listing_1 [lit "marker_out"]) /\
  re_search_cv_resume (name resume_md) = true /\
  exists p,
    _find_best_markdown example_listing_1 example_sizes [lit "marker_out"]
      = Ok p /\
    In p (example_listing_1 [lit "marker_out"]) /\
    re_search_cv_resume (name p) = true.
Proof.
  assert (H1 : In resume_md (example_listing_1 [lit "marker_out"]))
    by (right; left; reflexivity).
  assert (H2 : re_search_cv_resume (name resume_md) = true) by reflexivity.
  split; [exact H1|]. split; [exact H2|].
  exact (find_best_markdown_prefers_named
           example_listing_1 example_sizes _ _ H1 H2).
Defined.


(* ================================================================== *)
(** * More on [_strip_none_fields] *)
(* ================================================================== *)

Lemma keys_filter_incl (p : str * value -> bool) (d : dict) (k : str) :
  In k (keys (filter p d)) -> In k (keys d).
Proof.
  unfold keys. rewrite !in_map_iff. intros (kv & E & H).
  apply filter_In in H as [H _]. eauto.
Qed.

Lemma keys_filter_NoDup (p : str * value -> bool) (d : dict) :
  NoDup (keys d) -> NoDup (keys (filter p d)).
Proof.
  induction d as [|[k v] d IH]; simpl; intros H; [constructor|].
  inversion H as [|? ? Hk Hd]; subst.
  destruct (p (k, v)); simpl; [|now apply IH].
  constructor; [|now apply IH].
  intros HIn. apply Hk. now apply keys_filter_incl in HIn.
Qed.

Lemma filter_idem {A} (p : A -> bool) (l : list A) :
  filter p (filter p l) = filter p l.
Proof.
  induction l as [|x l IH]; simpl; [reflexivity|].
  destruct (p x) eqn:E; simpl; [now rewrite E, IH|exact IH].
Qed.

(** X13. On a dict, [_strip_none_fields] keeps exactly the items whose
    value is not [None], in their order and unchanged (it does not look
    inside a value); stripping a second time changes nothing. *)
Theorem strip_none_fields_keeps_non_null (d : dict) :
  NoDup (keys d) ->
  _strip_none_fields d = filter not_none d /\
  (forall k v, In (k, v) (_strip_none_fields d) <-> In (k, v) d /\ v <> VNone) /\
  _strip_none_fields (_strip_none_fields d) = _strip_none_fields d.
Proof.
  intros Hnd. pose proof (strip_none_filter d Hnd) as E.
  split; [exact E|]. split.
  - intros k v. rewrite E, filter_In. unfold not_none. simpl.
    destruct v; simpl; intuition congruence.
  - rewrite E. rewrite strip_none_filter by now apply keys_filter_NoDup.
    apply filter_idem.
Qed.

Lemma strip_none_fields_keeps_non_null_witness :
  NoDup (keys [ (lit "phone", VNone);
                (lit "email", VDict [ (lit "work", VNone) ]) ]) /\
  _strip_none_fields [ (lit "phone", VNone);
                       (lit "email", VDict [ (lit "work", VNone) ]) ]
  = filter not_none [ (lit "phone", VNone);
                      (lit "email", VDict [ (lit "work", VNone) ]) ].
Proof.
  assert (H : NoDup (keys [ (lit "phone", VNone);
                            (lit "email", VDict [ (lit "work", VNone) ]) ]))
    by literal_keys.
  split; [exact H|].
  exact (proj1 (strip_none_fields_keeps_non_null _ H)).
Defined.

(* ================================================================== *)
(** * The order of the keys *)
(* ================================================================== *)

Lemma has_key_In (d : dict) (k : str) :
  has_key d k = true <-> In k (keys d).
Proof.
  unfold has_key. destruct (dict_get d k) eqn:E.
  - split; [intros _|reflexivity].
    apply dict_get_In in E. unfold keys. apply in_map_iff. now exists (k, v).
  - apply dict_get_None in E. split; [discriminate|tauto].
Qed.

Lemma has_key_false (d : dict) (k : str) :
  ~ In k (keys d) -> has_key d k = false.
Proof.
  intros H. destruct (has_key d k) eqn:E; [|reflexivity].
  now apply has_key_In in E.
Qed.

Lemma keys_filter_in_order (p : str * value -> bool) (d : dict) :
  NoDup (keys d) -> keys_in_order (filter p d) (keys d).
Proof.
  unfold keys_in_order.
  induction d as [|[k v] d IH]; simpl; intros H; [reflexivity|].
  inversion H as [|? ? Hk Hd]; subst. specialize (IH Hd).
  destruct (p (k, v)); simpl.
  - unfold has_key at 1. simpl. rewrite str_eqb_refl. f_equal.
    rewrite IH at 1. apply filter_ext_in. intros k' Hk'.
    unfold has_key. simpl.
    destruct (str_eqb_spec k k') as [->|Hne]; [contradiction|reflexivity].
  - rewrite has_key_false
      by (intros HIn; apply Hk; now apply keys_filter_incl in HIn).
    exact IH.
Qed.

Lemma dict_get_app_fresh (d : dict) (k : str) (v : value) :
  ~ In k (keys d) -> dict_get (d ++ [(k, v)]) k = Some v.
Proof.
  induction d as [|[k0 v0] d IH]; simpl; intros H.
  - now rewrite str_eqb_refl.
  - destruct (str_eqb_spec k0 k) as [->|Hne]; [tauto|]. apply IH. tauto.
Qed.

Lemma keys_in_order_snoc (d : dict) (order : list str) (k : str) (v : value) :
  keys_in_order d order -> ~ In k (keys d) -> ~ In k order ->
  keys_in_order (d ++ [(k, v)]) (order ++ [k]).
Proof.
  unfold keys_in_order. intros H Hk Ho.
  assert (Hhk : has_key (d ++ [(k, v)]) k = true)
    by (unfold has_key; now rewrite dict_get_app_fresh).
  unfold keys at 1. rewrite map_app. fold (keys d). rewrite H at 1.
  rewrite filter_app. simpl. rewrite Hhk.
  f_equal. apply filter_ext_in. intros k' Hk'.
  unfold has_key. rewrite dict_get_app_other; [reflexivity|].
  intros ->. contradiction.
Qed.

Lemma keys_in_order_pad (d : dict) (order : list str) (k : str) :
  keys_in_order d order -> ~ In k (keys d) -> keys_in_order d (order ++ [k]).
Proof.
  unfold keys_in_order. intros H Hk. rewrite filter_app. simpl.
  rewrite has_key_false by assumption. now rewrite app_nil_r.
Qed.

(* ================================================================== *)
(** * More on the projector *)
(* ================================================================== *)

Lemma top_fields_keys (cv contact : dict) :
  keys (top_fields cv contact)
  = [lit "name"; lit "email"; lit "phone"; lit "location"; lit "website"].
Proof. reflexivity. Qed.

Lemma sections_lists (c secs : dict) :
  sections (VDict c) = Ok secs ->
  keys_in_order secs [lit "experience"; lit "education"; lit "skills"] /\
  Forall (fun kv => exists l, snd kv = VList l) secs.
Proof.
  intros H.
  destruct (sections_inv _ _ H)
    as (exp & edu & items & kept & _ & _ & _ & _ & _ & ->).
  unfold skills_section.
  destruct (nonempty exp), (nonempty edu), (nonempty kept); simpl;
    split; try reflexivity; repeat constructor; simpl; eauto.
Qed.

Lemma sections_not_top (cv contact extra : dict) :
  ~ In (lit "sections") (keys extra) ->
  ~ In (lit "sections")
      (keys (filter not_none (top_fields cv contact ++ extra))).
Proof.
  intros Hx HIn. apply keys_filter_incl in HIn.
  unfold keys in HIn. rewrite map_app in HIn. apply in_app_or in HIn.
  destruct HIn as [HIn|HIn]; [|now apply Hx].
  revert HIn. change (List.map fst (top_fields cv contact))
    with (keys (top_fields cv contact)).
  rewrite top_fields_keys. not_in_literal.
Qed.

Lemma drop_null_not_null (o : option value) : drop_null o <> Some VNone.
Proof. destruct o as [[]|]; simpl; congruence. Qed.

Lemma strip_single (c : N) : strip [c] = if isspace c then [] else [c].
Proof.
  unfold strip, rstrip. simpl. destruct (isspace c) eqn:E; [reflexivity|].
  simpl. now rewrite E.
Qed.

Lemma keep_skill_chars (s : str) :
  filter keep_skill (List.map (fun c => VStr [c]) s)
  = List.map VStr
      (List.map (fun c => [c]) (filter (fun c => negb (isspace c)) s)).
Proof.
  induction s as [|c s IH]; [reflexivity|].
  simpl. rewrite strip_single.
  destruct (isspace c); simpl; now rewrite IH.
Qed.

Lemma map_VStr_inj (l1 l2 : list str) :
  List.map VStr l1 = List.map VStr l2 -> l1 = l2.
Proof.
  revert l2. induction l1 as [|x l1 IH]; intros [|y l2]; simpl;
    try discriminate; [reflexivity|].
  intros [= -> H]. f_equal. now apply IH.
Qed.

Lemma experience_entry_company (item : dict) :
  dict_get (experience_entry item) (lit "company")
  = Some (py_or (get item (lit "company")) (VStr [])).
Proof.
  rewrite experience_entry_get.
  change (dict_get _ (lit "company"))
    with (Some (py_or (get item (lit "company")) (VStr []))).
  now apply drop_null_py_or.
Qed.

Lemma education_entry_institution (item : dict) :
  dict_get (education_entry item) (lit "institution")
  = Some (py_or (get item (lit "institution")) (VStr [])).
Proof.
  rewrite education_entry_get.
  change (dict_get _ (lit "institution"))
    with (Some (py_or (get item (lit "institution")) (VStr []))).
  now apply drop_null_py_or.
Qed.

Lemma experience_entry_highlights (item : dict) :
  dict_get (experience_entry item) (lit "highlights")
  = Some (py_or (get item (lit "highlights")) (VList [])).
Proof.
  rewrite experience_entry_get.
  change (dict_get _ (lit "highlights"))
    with (Some (py_or (get item (lit "highlights")) (VList []))).
  now apply drop_null_py_or.
Qed.

Lemma education_entry_highlights (item : dict) :
  dict_get (education_entry item) (lit "highlights")
  = Some (py_or (get item (lit "notes")) (VList [])).
Proof.
  rewrite education_entry_get.
  change (dict_get _ (lit "highlights"))
    with (Some (py_or (get item (lit "notes")) (VList []))).
  now apply drop_null_py_or.
Qed.

Lemma has_key_Some (d : dict) (k : str) (v : value) :
  dict_get d k = Some v -> has_key d k = true.
Proof. unfold has_key. now intros ->. Qed.

(** Closed key comparisons inside a dictionary literal. *)
Ltac literal_lookup :=
  cbn [dict_get];
  repeat match goal with
         | |- context [str_eqb ?a ?b] =>
             let r := eval vm_compute in (str_eqb a b) in
             change (str_eqb a b) with r
         end;
  cbv iota.

(** An optional key is kept exactly when the item's value under it is
    not null; a key the item lacks reads as null. *)
Lemma drop_null_has (v : value) :
  match drop_null (Some v) with Some _ => true | None => false end
  = negb (is_none v).
Proof. now destruct v. Qed.

Lemma filter_single {A} (f : A -> bool) (x : A) :
  filter f [x] = if f x then [x] else [].
Proof. reflexivity. Qed.

Lemma experience_entry_has_key (item : dict) (k : str) :
  In k [lit "position"; lit "location"; lit "start_date"; lit "end_date"] ->
  has_key (experience_entry item) k = negb (is_none (get item k)).
Proof.
  intros H. unfold has_key. rewrite experience_entry_get.
  rewrite <- drop_null_has.
  repeat (destruct H as [<-|H]; [literal_lookup; reflexivity|]).
  destruct H.
Qed.

Lemma education_entry_has_key (item : dict) (k : str) :
  In k [lit "degree"; lit "field"; lit "location"; lit "start_date";
        lit "end_date"] ->
  has_key (education_entry item) k = negb (is_none (get item k)).
Proof.
  intros H. unfold has_key. rewrite education_entry_get.
  rewrite <- drop_null_has.
  repeat (destruct H as [<-|H]; [literal_lookup; reflexivity|]).
  destruct H.
Qed.

(** X10. An experience entry has its keys in the order of the source
    literal: company first, always there and the empty string when the
    item has none; then those of position, location, start_date and
    end_date under which the item has a value that is not null (a key the
    item lacks counts as null); highlights last. An education entry
    likewise, from institution to highlights. The optional keys are read
    off the item, not off the entry. *)
Theorem entry_keys_in_order (item : dict) :
  (keys (experience_entry item)
   = [lit "company"]
     ++ filter (fun k => negb (is_none (get item k)))
          [lit "position"; lit "location"; lit "start_date"; lit "end_date"]
     ++ [lit "highlights"] /\
   dict_get (experience_entry item) (lit "company")
   = Some (py_or (get item (lit "company")) (VStr []))) /\
  (keys (education_entry item)
   = [lit "institution"]
     ++ filter (fun k => negb (is_none (get item k)))
          [lit "degree"; lit "field"; lit "location"; lit "start_date";
           lit "end_date"]
     ++ [lit "highlights"] /\
   dict_get (education_entry item) (lit "institution")
   = Some (py_or (get item (lit "institution")) (VStr []))).
Proof.
  split; split.
  - pose proof (has_key_Some _ _ _ (experience_entry_company item)) as Hc.
    pose proof (has_key_Some _ _ _ (experience_entry_highlights item)) as Hh.
    assert (Hk : keys_in_order (experience_entry item)
                   ([lit "company"]
                    ++ [lit "position"; lit "location"; lit "start_date";
                        lit "end_date"]
                    ++ [lit "highlights"])).
    { unfold experience_entry. rewrite strip_none_filter by literal_keys.
      apply (keys_filter_in_order not_none). literal_keys. }
    unfold keys_in_order in Hk. rewrite Hk at 1.
    rewrite !filter_app, !filter_single, Hc, Hh.
    cbn [app]. do 2 f_equal.
    apply filter_ext_in. intros k Hin.
    now apply experience_entry_has_key.
  - apply experience_entry_company.
  - pose proof (has_key_Some _ _ _ (education_entry_institution item)) as Hc.
    pose proof (has_key_Some _ _ _ (education_entry_highlights item)) as Hh.
    assert (Hk : keys_in_order (education_entry item)
                   ([lit "institution"]
                    ++ [lit "degree"; lit "field"; lit "location";
                        lit "start_date"; lit "end_date"]
                    ++ [lit "highlights"])).
    { unfold education_entry. rewrite strip_none_filter by literal_keys.
      apply (keys_filter_in_order not_none). literal_keys. }
    unfold keys_in_order in Hk. rewrite Hk at 1.
    rewrite !filter_app, !filter_single, Hc, Hh.
    cbn [app]. do 2 f_equal.
    apply filter_ext_in. intros k Hin.
    now apply education_entry_has_key.
  - apply education_entry_institution.
Qed.

(** An item with a null position, no location and both dates. *)
Example entry_keys_example :
  keys (experience_entry
          [ (lit "end_date", VStr (lit "2021"));
            (lit "position", VNone);
            (lit "start_date", VStr (lit "2020")) ])
  = [lit "company"; lit "start_date"; lit "end_date"; lit "highlights"].
Proof. reflexivity. Qed.

Section ProjectorMore.
Variable py_repr : value -> str.

Lemma social_entry_value (contact : dict) (key network : str) :
  social_entry py_repr (VDict contact) key network
  = Ok (if truthy (get contact key)
        then [ VDict [ (lit "network", VStr network);
                       (lit "username", VStr (py_str py_repr (get contact key))) ] ]
        else []).
Proof.
  unfold social_entry. simpl. unfold get.
  destruct (dict_get contact key) as [x|]; simpl; [|reflexivity].
  destruct (truthy x); reflexivity.
Qed.

(** The projection taken apart, the social links included. *)
Lemma convert_inv_social (structured out : dict) :
  convert_structured_to_rendercv_yaml py_repr structured = Ok out ->
  exists cv contact social secs,
    cv_of structured = VDict cv /\
    py_or (get cv (lit "contact_info")) (VDict []) = VDict contact /\
    social_networks py_repr (VDict contact) = Ok social /\
    sections (VDict cv) = Ok secs /\
    out = [ (lit "cv",
             VDict
               ((filter not_none
                   (top_fields cv contact
                    ++ (if nonempty social
                        then [(lit "social_networks", VList social)] else [])))
                ++ (if nonempty secs
                    then [(lit "sections", VDict secs)] else []))) ].
Proof.
  intros H.
  destruct (convert_inv _ _ _ H) as (cv & contact & _ & _ & Hcv & Hc & _).
  destruct (rendercv_cv_dict py_repr cv contact Hc) as (social & Hs & Hr).
  unfold convert_structured_to_rendercv_yaml in H.
  rewrite Hcv, Hr in H. cbn [bind] in H.
  destruct (sections (VDict cv)) as [secs|e] eqn:Hsecs; [|discriminate].
  cbn [bind] in H. injection H as <-.
  exists cv, contact, social, secs. repeat split; try assumption.
  do 3 f_equal.
  assert (Hfresh : forall extra,
             ~ In (lit "sections")
                 (keys (filter not_none (top_fields cv contact ++ extra))) ->
             dict_set (filter not_none (top_fields cv contact ++ extra))
               (lit "sections") (VDict secs)
             = filter not_none (top_fields cv contact ++ extra)
               ++ [(lit "sections", VDict secs)])
    by (intros extra Hx; now apply dict_set_fresh).
  assert (Hout : forall extra,
             ~ In (lit "sections") (keys extra) ->
             ~ In (lit "sections")
                 (keys (filter not_none (top_fields cv contact ++ extra)))).
  { intros extra Hx HIn. apply keys_filter_incl in HIn.
    unfold keys in HIn. rewrite map_app in HIn. apply in_app_or in HIn.
    destruct HIn as [HIn|HIn]; [|now apply Hx].
    revert HIn. change (List.map fst (top_fields cv contact))
      with (keys (top_fields cv contact)).
    rewrite top_fields_keys. not_in_literal. }
  destruct (nonempty social).
  - rewrite strip_none_filter by (unfold top_fields; literal_keys).
    destruct (nonempty secs); [|now rewrite app_nil_r].
    apply (Hfresh [(lit "social_networks", VList social)]).
    apply Hout. not_in_literal.
  - rewrite strip_none_filter by (unfold top_fields; literal_keys).
    rewrite app_nil_r.
    destruct (nonempty secs); [|now rewrite app_nil_r].
    pose proof (Hfresh []) as Hf. rewrite app_nil_r in Hf.
    apply Hf. pose proof (Hout []) as Ho. rewrite app_nil_r in Ho.
    apply Ho. intros [].
Qed.

(** X7. A record whose cv is missing, null or otherwise falsy projects to
    a cv mapping that holds only the empty name. *)
Theorem projection_of_missing_cv (structured : dict) :
  truthy (get structured (lit "cv")) = false ->
  convert_structured_to_rendercv_yaml py_repr structured
  = Ok [ (lit "cv", VDict [ (lit "name", VStr []) ]) ].
Proof.
  intros H. unfold convert_structured_to_rendercv_yaml, cv_of, py_or.
  rewrite H. reflexivity.
Qed.

(** X8. The social links of a projection: one entry for linkedin, then
    one for github, each only when the contact field is truthy, with the
    fixed network label and the field printed by [str] as username; the
    key is absent when both are falsy. *)
Theorem social_networks_projected (structured out : dict) :
  convert_structured_to_rendercv_yaml py_repr structured = Ok out ->
  lookup_path (VDict out) [lit "cv"; lit "social_networks"]
  = (if truthy (field structured [lit "cv"; lit "contact_info"; lit "linkedin"])
        || truthy (field structured [lit "cv"; lit "contact_info"; lit "github"])
     then
       Some (VList
         ((if truthy (field structured
                        [lit "cv"; lit "contact_info"; lit "linkedin"])
           then [ VDict [ (lit "network", VStr (lit "LinkedIn"));
                          (lit "username",
                           VStr (py_str py_repr
                                   (field structured
                                      [lit "cv"; lit "contact_info";
                                       lit "linkedin"]))) ] ]
           else [])
          ++
          (if truthy (field structured
                        [lit "cv"; lit "contact_info"; lit "github"])
           then [ VDict [ (lit "network", VStr (lit "GitHub"));
                          (lit "username",
                           VStr (py_str py_repr
                                   (field structured
                                      [lit "cv"; lit "contact_info";
                                       lit "github"]))) ] ]
           else [])))
     else None).
Proof.
  intros H.
  destruct (convert_inv_social _ _ H)
    as (cv & contact & social & secs & Hcv & Hc & Hs & _ & ->).
  assert (F : forall k, get contact k
                        = field structured [lit "cv"; lit "contact_info"; k]).
  { intros k. unfold get, field.
    now rewrite (get_contact_field _ _ _ k Hcv Hc). }
  unfold social_networks in Hs. rewrite !social_entry_value in Hs.
  cbn [bind] in Hs. injection Hs as <-. rewrite !F.
  change (lookup_path (VDict [(lit "cv", ?v)]) [lit "cv"; ?k])
    with (lookup_path v [k]).
  cbn [lookup_path].
  assert (E : forall d,
             dict_get (d ++ (if nonempty secs
                             then [(lit "sections", VDict secs)] else []))
               (lit "social_networks")
             = dict_get d (lit "social_networks")).
  { intros d. destruct (nonempty secs); [|now rewrite app_nil_r].
    apply dict_get_app_other. intros E. vm_compute in E. discriminate. }
  rewrite E. clear E.
  set (l := field structured [lit "cv"; lit "contact_info"; lit "linkedin"]).
  set (g := field structured [lit "cv"; lit "contact_info"; lit "github"]).
  assert (Hnd : forall extra,
             NoDup (keys (top_fields cv contact
                          ++ [(lit "social_networks", extra)])))
    by (intros extra; literal_keys).
  destruct (truthy l), (truthy g); simpl orb; cbv iota;
    cbn [app nonempty];
    try (rewrite dict_get_filter_not_none by apply Hnd; reflexivity).
  rewrite app_nil_r.
  rewrite dict_get_filter_not_none by (unfold top_fields; literal_keys).
  reflexivity.
Qed.

(** X9. The keys of a projection come in a fixed order: cv alone at the
    top; in the cv mapping name first, then those of email, phone,
    location, website, social_networks and sections that are present;
    in the sections mapping experience, education, skills. *)
Theorem projection_key_order (structured out : dict) :
  convert_structured_to_rendercv_yaml py_repr structured = Ok out ->
  exists cv_out,
    out = [ (lit "cv", VDict cv_out) ] /\
    keys_in_order cv_out
      [lit "name"; lit "email"; lit "phone"; lit "location"; lit "website";
       lit "social_networks"; lit "sections"] /\
    hd_error (keys cv_out) = Some (lit "name") /\
    forall v,
      dict_get cv_out (lit "sections") = Some v ->
      exists secs,
        v = VDict secs /\
        keys_in_order secs [lit "experience"; lit "education"; lit "skills"].
Proof.
  intros H.
  destruct (convert_inv_social _ _ H)
    as (cv & contact & social & secs & Hcv & Hc & Hs & Hsecs & ->).
  eexists. split; [reflexivity|].
  set (extra := if nonempty social
                then [(lit "social_networks", VList social)] else []).
  assert (Hx : ~ In (lit "sections") (keys extra))
    by (subst extra; destruct (nonempty social); not_in_literal).
  pose proof (sections_not_top cv contact extra Hx) as Hfresh.
  assert (Hnd : NoDup (keys (top_fields cv contact ++ extra)))
    by (subst extra; destruct (nonempty social); unfold top_fields;
        literal_keys).
  pose proof (keys_filter_in_order not_none _ Hnd) as Hord.
  assert (Hord6 : keys_in_order
                    (filter not_none (top_fields cv contact ++ extra))
                    [lit "name"; lit "email"; lit "phone"; lit "location";
                     lit "website"; lit "social_networks"]).
  { subst extra. destruct (nonempty social); [exact Hord|].
    rewrite app_nil_r in *.
    apply (keys_in_order_pad _
             [lit "name"; lit "email"; lit "phone"; lit "location";
              lit "website"] (lit "social_networks") Hord).
    intros HIn. apply keys_filter_incl in HIn. revert HIn.
    rewrite top_fields_keys. not_in_literal. }
  split; [|split].
  - destruct (nonempty secs).
    + apply (keys_in_order_snoc _
               [lit "name"; lit "email"; lit "phone"; lit "location";
                lit "website"; lit "social_networks"]
               (lit "sections") (VDict secs) Hord6 Hfresh).
      not_in_literal.
    + rewrite app_nil_r.
      apply (keys_in_order_pad _
               [lit "name"; lit "email"; lit "phone"; lit "location";
                lit "website"; lit "social_networks"]
               (lit "sections") Hord6 Hfresh).
  - unfold top_fields. cbn [app filter].
    assert (Hn : not_none (lit "name", py_or (get cv (lit "name")) (VStr []))
                 = true).
    { unfold not_none. simpl.
      pose proof (py_or_not_none (get cv (lit "name")) (VStr [])) as Hp.
      destruct (py_or (get cv (lit "name")) (VStr [])); try reflexivity.
      exfalso. apply Hp; [discriminate|reflexivity]. }
    rewrite Hn. reflexivity.
  - intros v Hv. destruct (nonempty secs) eqn:En.
    + rewrite dict_get_app_fresh in Hv by exact Hfresh.
      injection Hv as <-. exists secs. split; [reflexivity|].
      now apply (sections_lists cv secs Hsecs).
    + rewrite app_nil_r in Hv. apply dict_get_None in Hfresh. congruence.
Qed.

(** X11. No key of a projection holds [None]: not in the cv mapping, not
    in the sections mapping, not in an experience or education entry. *)
Theorem projection_has_no_null (structured out : dict) :
  convert_structured_to_rendercv_yaml py_repr structured = Ok out ->
  (forall k, lookup_path (VDict out) [lit "cv"; k] <> Some VNone) /\
  (forall k, lookup_path (VDict out) [lit "cv"; lit "sections"; k]
             <> Some VNone) /\
  (forall item k,
      dict_get (experience_entry item) k <> Some VNone /\
      dict_get (education_entry item) k <> Some VNone).
Proof.
  intros H. split; [|split].
  - destruct (convert_inv_social _ _ H)
      as (cv & contact & social & secs & _ & _ & _ & _ & ->).
    intros k.
    change (lookup_path (VDict [(lit "cv", ?v)]) [lit "cv"; k])
      with (lookup_path v [k]).
    cbn [lookup_path].
    destruct (dict_get _ k) as [x|] eqn:E; [|discriminate].
    intros [= ->]. apply dict_get_In in E. apply in_app_or in E.
    destruct E as [E|E].
    + apply filter_In in E as [_ E]. discriminate E.
    + destruct (nonempty secs); simpl in E; [|exact E].
      destruct E as [E|[]]. discriminate E.
  - destruct (convert_sections py_repr _ _ H) as (cv & secs & _ & Hsecs & L).
    intros k. rewrite L. destruct (nonempty secs); [|discriminate].
    cbn [lookup_path].
    destruct (dict_get secs k) as [x|] eqn:E; [|discriminate].
    intros [= ->]. apply dict_get_In in E.
    destruct (sections_lists cv secs Hsecs) as [_ Hall].
    rewrite Forall_forall in Hall.
    destruct (Hall _ E) as (l & Hl). discriminate Hl.
  - intros item k. rewrite experience_entry_get, education_entry_get.
    split; apply drop_null_not_null.
Qed.

(** X12. A skills field that is one string is read character by
    character: each character that is not whitespace becomes a skill of
    its own, and they are joined by ", ". *)
Theorem skills_given_as_string (structured out : dict) (s : str) :
  convert_structured_to_rendercv_yaml py_repr structured = Ok out ->
  field structured [lit "cv"; lit "skills"] = VStr s ->
  lookup_path (VDict out) [lit "cv"; lit "sections"; lit "skills"]
  = (if nonempty (filter (fun c => negb (isspace c)) s)
     then Some (skills_section
                  (List.map (fun c => [c])
                     (filter (fun c => negb (isspace c)) s)))
     else None).
Proof.
  intros H Hs.
  destruct (convert_sections_spelled py_repr _ _ H)
    as (cv & items & kept & Hcv & Hitems & Ek & _ & _ & _ & _ & _ & L3 & _).
  rewrite <- (get_field_cv _ _ (lit "skills") Hcv) in Hs.
  rewrite Hs in Hitems. rewrite L3.
  assert (E : kept = List.map (fun c => [c])
                       (filter (fun c => negb (isspace c)) s)).
  { apply map_VStr_inj. rewrite <- Ek, <- keep_skill_chars.
    destruct s as [|c s]; unfold py_or in Hitems; simpl in Hitems;
      injection Hitems as <-; reflexivity. }
  rewrite E. now rewrite nonempty_map.
Qed.

End ProjectorMore.

Lemma projection_of_missing_cv_witness :
  truthy (get [] (lit "cv")) = false /\
  convert_structured_to_rendercv_yaml py_repr_unused []
  = Ok [ (lit "cv", VDict [ (lit "name", VStr []) ]) ].
Proof.
  assert (H : truthy (get [] (lit "cv")) = false) by reflexivity.
  split; [exact H|].
  exact (projection_of_missing_cv py_repr_unused [] H).
Defined.

Lemma social_networks_projected_witness :
  convert_structured_to_rendercv_yaml py_repr_unused example_social
    = Ok example_social_out /\
  lookup_path (VDict example_social_out) [lit "cv"; lit "social_networks"]
  = Some (VList [ VDict [ (lit "network", VStr (lit "LinkedIn"));
                          (lit "username", VStr (lit "jane-doe")) ];
                  VDict [ (lit "network", VStr (lit "GitHub"));
                          (lit "username", VStr (lit "jane")) ] ]).
Proof.
  assert (H : convert_structured_to_rendercv_yaml py_repr_unused example_social
              = Ok example_social_out) by reflexivity.
  split; [exact H|].
  exact (social_networks_projected py_repr_unused
           example_social example_social_out H).
Defined.

Lemma projection_key_order_witness :
  convert_structured_to_rendercv_yaml py_repr_unused example_social
    = Ok example_social_out /\
  exists cv_out,
    example_social_out = [ (lit "cv", VDict cv_out) ] /\
    keys_in_order cv_out
      [lit "name"; lit "email"; lit "phone"; lit "location"; lit "website";
       lit "social_networks"; lit "sections"] /\
    hd_error (keys cv_out) = Some (lit "name").
Proof.
  assert (H : convert_structured_to_rendercv_yaml py_repr_unused example_social
              = Ok example_social_out) by reflexivity.
  split; [exact H|].
  destruct (projection_key_order py_repr_unused
              example_social example_social_out H)
    as (cv_out & H1 & H2 & H3 & _).
  exists cv_out. auto.
Defined.

Lemma projection_has_no_null_witness :
  convert_structured_to_rendercv_yaml py_repr_unused example_sparse
    = Ok example_sparse_out /\
  forall k, lookup_path (VDict example_sparse_out) [lit "cv"; k] <> Some VNone.
Proof.
  assert (H : convert_structured_to_rendercv_yaml py_repr_unused example_sparse
              = Ok example_sparse_out) by reflexivity.
  split; [exact H|].
  exact (proj1 (projection_has_no_null py_repr_unused
                  example_sparse example_sparse_out H)).
Defined.

Lemma skills_given_as_string_witness :
  convert_structured_to_rendercv_yaml py_repr_unused example_skills_string
    = Ok example_skills_string_out /\
  field example_skills_string [lit "cv"; lit "skills"] = VStr (lit "Go C") /\
  lookup_path (VDict example_skills_string_out)
    [lit "cv"; lit "sections"; lit "skills"]
  = Some (VList [ VDict [ (lit "details", VStr (lit "G, o, C")) ] ]).
Proof.
  assert (H : convert_structured_to_rendercv_yaml py_repr_unused
                example_skills_string
              = Ok example_skills_string_out) by reflexivity.
  assert (F : field example_skills_string [lit "cv"; lit "skills"]
              = VStr (lit "Go C")) by reflexivity.
  split; [exact H|]. split; [exact F|].
  exact (skills_given_as_string py_repr_unused
           example_skills_string example_skills_string_out _ H F).
Defined.

(* ================================================================== *)
(** * The generation client *)
(* ================================================================== *)

Lemma lstrip_char_repeat (c : N) (n : nat) (s : str) :
  lstrip_char c (repeat c n ++ s) = lstrip_char c s.
Proof.
  induction n as [|n IH]; simpl; [reflexivity|].
  now rewrite N.eqb_refl.
Qed.

Lemma rev_repeat {A} (x : A) (n : nat) : rev (repeat x n) = repeat x n.
Proof.
  induction n as [|n IH]; simpl; [reflexivity|].
  rewrite IH. clear IH. induction n as [|n IH]; simpl; [reflexivity|].
  now rewrite IH.
Qed.

Lemma lstrip_char_head (c : N) (s : str) :
  hd_error (lstrip_char c s) <> Some c.
Proof.
  induction s as [|x s IH]; simpl; [discriminate|].
  destruct (N.eqb_spec x c) as [->|Hne]; [exact IH|].
  simpl. congruence.
Qed.

Lemma last_rev_hd (s : str) (c : N) :
  last s c = match hd_error (rev s) with Some x => x | None => c end.
Proof.
  induction s as [|x s IH] using rev_ind; [reflexivity|].
  rewrite last_last, rev_app_distr. reflexivity.
Qed.

(** X17. The request goes to the base URL with every trailing slash
    removed, followed by /api/chat: any number of trailing slashes gives
    the same URL, and /api/chat is never preceded by a second slash. *)
Theorem api_chat_url_trailing_slashes (base_url : str) (n : nat) :
  api_chat_url (base_url ++ repeat slash n) = api_chat_url base_url /\
  (forall u, api_chat_url base_url = u ++ lit "/api/chat" ->
             u = rstrip_char slash base_url /\
             (u <> [] -> last u 0%N <> slash)).
Proof.
  split.
  - unfold api_chat_url, rstrip_char.
    rewrite rev_app_distr, rev_repeat, lstrip_char_repeat. reflexivity.
  - intros u Hu. unfold api_chat_url in Hu.
    apply app_inv_tail in Hu. subst u. split; [reflexivity|].
    intros Hne. unfold rstrip_char in *.
    rewrite last_rev_hd, rev_involutive.
    pose proof (lstrip_char_head slash (rev base_url)) as Hh.
    destruct (lstrip_char slash (rev base_url)) as [|x t]; [now elim Hne|].
    simpl in *. congruence.
Qed.

Lemma reply_content_mapping (d msg : dict) :
  py_or (get d (lit "message")) (VDict []) = VDict msg ->
  reply_content (VDict d) = Ok (get msg (lit "content")).
Proof. intros H. unfold reply_content. now rewrite H. Qed.

Lemma reply_content_Ok (data c : value) :
  reply_content data = Ok c ->
  (c = VNone /\ forall d, data <> VDict d) \/
  exists d msg,
    data = VDict d /\
    py_or (get d (lit "message")) (VDict []) = VDict msg /\
    c = get msg (lit "content").
Proof.
  destruct data as [| | | | | |d]; simpl;
    try (intros [= <-]; left; split; [reflexivity|intros d; discriminate]).
  intros H. apply attr_get_Ok in H as (msg & Hm & ->).
  right. exists d, msg. auto.
Qed.

Lemma reply_content_Raise (data : value) (e : exn) :
  reply_content data = Raise e ->
  e = AttributeError /\
  exists d, data = VDict d /\
            truthy (get d (lit "message")) = true /\
            forall m, get d (lit "message") <> VDict m.
Proof.
  destruct data as [| | | | | |d]; simpl; try discriminate.
  unfold py_or. destruct (truthy (get d (lit "message"))) eqn:E;
    [|discriminate].
  destruct (get d (lit "message")) eqn:Em; simpl; try discriminate;
    intros [= <-]; (split; [reflexivity|]); exists d; rewrite Em;
    (split; [reflexivity|]); (split; [exact E|]); intros m; discriminate.
Qed.

Section ClientFacts.
Variable SYSTEM_PROMPT : str.
Variable json_loads : str -> loads_result.
Variable transport_error : Type.
Variable post_json : str -> value -> Z -> transport_error + value.
Variable requests_installed : bool.

Lemma extract_raises (text : str) (e : exn) :
  _extract_json_object json_loads text = Raise e ->
  e = ValueError \/ e = JSONDecodeError \/ exists cls, e = LibraryError cls.
Proof.
  unfold _extract_json_object.
  destruct (json_loads (strip text)) as [v| |cls];
    [discriminate| |intros [= <-]; right; right; now exists cls].
  destruct (_ || _)%bool; [intros [= <-]; now left|].
  destruct (json_loads _) as [v| |cls]; simpl;
    [discriminate|intros [= <-]; right; now left
    |intros [= <-]; right; right; now exists cls].
Qed.

Lemma structured_of_reply_Ok (data : value) (obj : dict) :
  structured_of_reply json_loads data = Ok obj <->
  exists d msg text,
    data = VDict d /\
    py_or (get d (lit "message")) (VDict []) = VDict msg /\
    get msg (lit "content") = VStr text /\
    strip text <> [] /\
    _extract_json_object json_loads text = Ok (VDict obj) /\
    has_key obj (lit "cv") = true.
Proof.
  unfold structured_of_reply. split.
  - intros H. bind_inv H as c Hc.
    destruct c as [| | | |text| |]; try discriminate.
    destruct (strip text) as [|x t] eqn:Es; [discriminate|]. simpl in H.
    bind_inv H as o Ho. destruct o as [| | | | | |o]; try discriminate.
    destruct (has_key o (lit "cv")) eqn:Ek; [|discriminate].
    injection H as <-.
    apply reply_content_Ok in Hc as [[Hn _]|(d & msg & -> & Hm & Hcm)];
      [discriminate|].
    exists d, msg, text. rewrite Es. repeat split; auto. discriminate.
  - intros (d & msg & text & -> & Hm & Hc & Hs & He & Hk).
    rewrite (reply_content_mapping d msg Hm), Hc. simpl.
    destruct (strip text); [congruence|]. simpl.
    rewrite He. simpl. now rewrite Hk.
Qed.

(** X14. The client returns a record exactly when [requests] is there,
    the transport delivers a mapping whose message is a mapping with a
    string content that is not blank, and the salvage parser gets a
    mapping with the key cv out of that content; the record is that
    mapping. *)
Theorem ollama_returns_validated_record
  (markdown_text model base_url : str) (timeout_s : Z) (obj : dict) :
  ollama_markdown_to_structured_json SYSTEM_PROMPT json_loads post_json
    requests_installed markdown_text model base_url timeout_s
  = inr (Ok obj) <->
  requests_installed = true /\
  exists d msg text,
    post_json (api_chat_url base_url)
      (payload SYSTEM_PROMPT markdown_text model) timeout_s
    = inr (VDict d) /\
    py_or (get d (lit "message")) (VDict []) = VDict msg /\
    get msg (lit "content") = VStr text /\
    strip text <> [] /\
    _extract_json_object json_loads text = Ok (VDict obj) /\
    has_key obj (lit "cv") = true.
Proof.
  unfold ollama_markdown_to_structured_json.
  destruct requests_installed.
  - destruct (post_json _ _ _) as [e|data].
    + split; [discriminate|]. intros (_ & d & msg & text & H & _).
      discriminate.
    + split.
      * intros [= H]. apply structured_of_reply_Ok in H
          as (d & msg & text & -> & H).
        split; [reflexivity|]. exists d, msg, text. auto.
      * intros (_ & d & msg & text & [= ->] & H). f_equal.
        apply structured_of_reply_Ok. exists d, msg, text. auto.
  - split; [discriminate|]. intros (H & _). discriminate.
Qed.

(** X15. A reply without usable content (the body is no mapping, or the
    content is missing, is no string or is blank) ends in RuntimeError,
    whatever the parser would make of anything. *)
Theorem reply_without_content (data c : value) :
  reply_content data = Ok c ->
  (forall text, c = VStr text -> strip text = []) ->
  structured_of_reply json_loads data = Raise RuntimeError.
Proof.
  intros Hc Hblank. unfold structured_of_reply. rewrite Hc. simpl.
  destruct c; try reflexivity.
  now rewrite (Hblank s eq_refl).
Qed.

(** X16. The one way the client's own code raises AttributeError: the
    reply's message is truthy and not a mapping. *)
Theorem reply_attribute_error_iff (data : value) :
  structured_of_reply json_loads data = Raise AttributeError <->
  exists d,
    data = VDict d /\
    truthy (get d (lit "message")) = true /\
    forall m, get d (lit "message") <> VDict m.
Proof.
  unfold structured_of_reply. split.
  - intros H. destruct (reply_content data) as [c|e] eqn:Hc; cbn [bind] in H.
    + exfalso. destruct c as [| | | |text| |]; try discriminate.
      destruct (truthy (VStr (strip text))); [|discriminate].
      destruct (_extract_json_object json_loads text) as [o|e] eqn:He;
        cbn [bind] in H.
      * destruct o as [| | | | | |o]; try discriminate.
        destruct (has_key o (lit "cv")); discriminate.
      * injection H as ->. apply extract_raises in He as [He|[He|[cls He]]];
          discriminate.
    + injection H as ->. now apply reply_content_Raise in Hc as [_ Hc].
  - intros (d & -> & Ht & Hm). simpl. unfold py_or. rewrite Ht.
    destruct (get d (lit "message")) eqn:E; try reflexivity.
    exfalso. now apply (Hm d0).
Qed.

(** X18. Whatever the reply, the code after the transport raises nothing
    but RuntimeError, AttributeError, and what the salvage parser raises:
    NoJsonFound ([ValueError]), InvalidJson ([JSONDecodeError]), or an
    exception that [json.loads] let out and that is no decode error; these
    come from the parser run on the reply's content. *)
Theorem reply_exceptions (data : value) (e : exn) :
  structured_of_reply json_loads data = Raise e ->
  e = RuntimeError \/ e = AttributeError \/
  ((e = ValueError \/ e = JSONDecodeError \/
    exists cls, e = LibraryError cls) /\
   exists text,
     reply_content data = Ok (VStr text) /\
     _extract_json_object json_loads text = Raise e).
Proof.
  unfold structured_of_reply. intros H.
  destruct (reply_content data) as [c|e0] eqn:Hc; cbn [bind] in H.
  - destruct c as [| | | |text| |]; try (injection H as <-; now left).
    destruct (truthy (VStr (strip text))); [|injection H as <-; now left].
    destruct (_extract_json_object json_loads text) as [o|e1] eqn:He;
      cbn [bind] in H.
    + destruct o as [| | | | | |o]; try (injection H as <-; now left).
      destruct (has_key o (lit "cv")); [discriminate|].
      injection H as <-. now left.
    + injection H as ->. right. right.
      split; [now apply extract_raises in He|]. exists text. auto.
  - injection H as ->. apply reply_content_Raise in Hc as [-> _].
    right. now left.
Qed.

End ClientFacts.

Lemma reply_without_content_witness :
  reply_content (VList []) = Ok VNone /\
  structured_of_reply example_loads (VList []) = Raise RuntimeError.
Proof.
  assert (H : reply_content (VList []) = Ok VNone) by reflexivity.
  split; [exact H|].
  apply (reply_without_content example_loads (VList []) VNone H).
  intros text E. discriminate E.
Defined.

Lemma reply_exceptions_witness :
  structured_of_reply example_loads example_reply_string
    = Raise AttributeError /\
  (AttributeError = RuntimeError \/ AttributeError = AttributeError \/
   ((AttributeError = ValueError \/ AttributeError = JSONDecodeError \/
     exists cls, AttributeError = LibraryError cls) /\
    exists text,
      reply_content example_reply_string = Ok (VStr text) /\
      _extract_json_object example_loads text = Raise AttributeError)).
Proof.
  assert (H : structured_of_reply example_loads example_reply_string
              = Raise AttributeError) by reflexivity.
  split; [exact H|].
  exact (reply_exceptions example_loads example_reply_string _ H).
Defined.

(** The reply wrapped in prose goes through the whole client. *)
Example example_reply_structured :
  structured_of_reply example_loads example_reply
  = Ok [ (lit "cv", VDict []) ].
Proof. reflexivity. Qed.

(* ================================================================== *)
(** * The working-directory layout *)
(* ================================================================== *)

Lemma joinpath_inj (w : Path) (a b : str) :
  joinpath w a = joinpath w b -> a = b.
Proof.
  unfold joinpath. intros H. apply app_inv_head in H. now injection H.
Qed.

(** X19. Whatever the working directory, the marker output directory
    and the three artifact files are four different paths, each directly
    inside the working directory: no stage overwrites what another
    wrote. *)
Theorem build_paths_distinct (w : Path) :
  work_dir (build_paths w) = w /\
  NoDup [ marker_out_dir (build_paths w);
          markdown_path (build_paths w);
          structured_json_path (build_paths w);
          rendercv_yaml_path (build_paths w) ] /\
  Forall (fun p => removelast p = w /\ p <> w)
    [ marker_out_dir (build_paths w);
      markdown_path (build_paths w);
      structured_json_path (build_paths w);
      rendercv_yaml_path (build_paths w) ].
Proof.
  split; [reflexivity|]. split.
  - simpl. repeat constructor; simpl; intros H;
      repeat (destruct H as [H|H];
              [apply joinpath_inj in H; vm_compute in H; discriminate H|]);
      exact H.
  - simpl. repeat constructor; unfold joinpath;
      try apply removelast_last;
      intros H; apply (f_equal (@List.length str)) in H;
      rewrite length_app in H; simpl in H; lia.
Qed.

(* ================================================================== *)
(** * What the selector and the projector do not do *)
(* ================================================================== *)

(** X20. The selector fails only on an empty listing, and then with
    RuntimeError; indexing the sorted list never fails. *)
Theorem find_best_markdown_fails_iff
  (rglob_md : Path -> list Path) (st_size : Path -> option N)
  (dir : Path) (e : exn) :
  _find_best_markdown rglob_md st_size dir = Raise e <->
  rglob_md dir = [] /\ e = RuntimeError.
Proof.
  split.
  - intros H. destruct (rglob_md dir) as [|p l] eqn:E.
    + rewrite (find_best_markdown_no_files rglob_md st_size dir E) in H.
      injection H as <-. auto.
    + assert (Hne : rglob_md dir <> []) by congruence.
      destruct (find_best_markdown_head rglob_md st_size dir Hne)
        as (q & Hq & _).
      congruence.
  - intros [E ->]. now apply find_best_markdown_no_files.
Qed.

Section ProjectorFrame.
Variable py_repr : value -> str.

(** X21. The projector reads five fields of cv and nothing else: two
    records whose cv mappings agree on name, contact_info, experience,
    education and skills have the same projection, whatever other keys
    they carry. *)
Theorem projection_reads_five_fields (s1 s2 c1 c2 : dict) :
  cv_of s1 = VDict c1 -> cv_of s2 = VDict c2 ->
  (forall k,
      In k [lit "name"; lit "contact_info"; lit "experience";
            lit "education"; lit "skills"] ->
      get c1 k = get c2 k) ->
  convert_structured_to_rendercv_yaml py_repr s1
  = convert_structured_to_rendercv_yaml py_repr s2.
Proof.
  intros H1 H2 Hk.
  assert (En : get c1 (lit "name") = get c2 (lit "name"))
    by (apply Hk; simpl; auto).
  assert (Ec : get c1 (lit "contact_info") = get c2 (lit "contact_info"))
    by (apply Hk; simpl; auto).
  assert (Ex : get c1 (lit "experience") = get c2 (lit "experience"))
    by (apply Hk; simpl; auto).
  assert (Ed : get c1 (lit "education") = get c2 (lit "education"))
    by (apply Hk; simpl; auto 6).
  assert (Es : get c1 (lit "skills") = get c2 (lit "skills"))
    by (apply Hk; simpl; auto 6).
  unfold convert_structured_to_rendercv_yaml. rewrite H1, H2.
  assert (Er : rendercv_cv py_repr (VDict c1) = rendercv_cv py_repr (VDict c2)).
  { unfold rendercv_cv.
    change (attr_get (VDict c1) ?k) with (Ok (get c1 k)).
    change (attr_get (VDict c2) ?k) with (Ok (get c2 k)).
    now rewrite En, Ec. }
  assert (Esec : sections (VDict c1) = sections (VDict c2)).
  { unfold sections, exp_entries, edu_entries, skills.
    change (attr_get (VDict c1) ?k) with (Ok (get c1 k)).
    change (attr_get (VDict c2) ?k) with (Ok (get c2 k)).
    now rewrite Ex, Ed, Es. }
  now rewrite Er, Esec.
Qed.

End ProjectorFrame.

Lemma projection_reads_five_fields_witness :
  (exists c1 c2,
      cv_of example_sparse = VDict c1 /\
      cv_of example_sparse_extended = VDict c2 /\
      c1 <> c2 /\
      forall k,
        In k [lit "name"; lit "contact_info"; lit "experience";
              lit "education"; lit "skills"] ->
        get c1 k = get c2 k) /\
  convert_structured_to_rendercv_yaml py_repr_unused example_sparse
  = convert_structured_to_rendercv_yaml py_repr_unused example_sparse_extended.
Proof.
  assert (H1 : cv_of example_sparse
               = VDict [ (lit "name", VStr (lit "Jane"));
                         (lit "experience",
                          VList [ VStr (lit "stray");
                                  VDict [ (lit "company", VStr (lit "Acme"));
                                          (lit "start_date",
                                           VStr (lit "2020-03")) ] ]) ])
    by reflexivity.
  assert (H2 : cv_of example_sparse_extended
               = VDict [ (lit "summary", VStr (lit "Engineer"));
                         (lit "name", VStr (lit "Jane"));
                         (lit "experience",
                          VList [ VStr (lit "stray");
                                  VDict [ (lit "company", VStr (lit "Acme"));
                                          (lit "start_date",
                                           VStr (lit "2020-03")) ] ]) ])
    by reflexivity.
  assert (Hk : forall k,
             In k [lit "name"; lit "contact_info"; lit "experience";
                   lit "education"; lit "skills"] ->
             get [ (lit "name", VStr (lit "Jane"));
                   (lit "experience",
                    VList [ VStr (lit "stray");
                            VDict [ (lit "company", VStr (lit "Acme"));
                                    (lit "start_date",
                                     VStr (lit "2020-03")) ] ]) ] k
             = get [ (lit "summary", VStr (lit "Engineer"));
                     (lit "name", VStr (lit "Jane"));
                     (lit "experience",
                      VList [ VStr (lit "stray");
                              VDict [ (lit "company", VStr (lit "Acme"));
                                      (lit "start_date",
                                       VStr (lit "2020-03")) ] ]) ] k).
  { intros k Hin. cbn [In] in Hin.
    destruct Hin as [<-|[<-|[<-|[<-|[<-|[]]]]]]; reflexivity. }
  split.
  - eexists _, _. split; [exact H1|]. split; [exact H2|].
    split; [discriminate|exact Hk].
  - exact (projection_reads_five_fields py_repr_unused _ _ _ _ H1 H2 Hk).
Defined.
